(** * The Longhorn setting controller (controller/setting_controller.go)

    A shallow embedding of the reconciliation engine of the setting
    controller: the worker step [processNextWorkItem], the retry policy
    [handleErr], the sync handler [syncSetting], the version checker
    [CheckLatestLonghornVersion] and the enqueue callback [enqueueSetting].

    Go functions that return [(value, error)] become computations in a
    state-and-error monad over the controller; everything the code does to
    the outside (store reads and writes, the HTTP round trip, log lines,
    queue calls, reported errors) is appended to a trace, so that "performs
    no network call" or "writes the store exactly once" are statements about
    that trace. *)

From Stdlib Require Import ZArith String Ascii List Bool Lia.
From stdpp Require Import base option gmap strings list.
Import ListNotations.

Local Open Scope string_scope.
Local Open Scope Z_scope.
Local Open Scope list_scope.

(** ** Time

    [time.Time] is an instant and [time.Duration] a signed number of
    nanoseconds.  An instant is represented by the number of nanoseconds
    elapsed since the zero value [time.Time{}]; [Add] and [Before] are then
    addition and strict order.  (The saturation of [Time.Add] at the ends of
    the representable range is out of reach of a 24 hour interval.) *)

Abbreviation Time := Z (only parsing).
Abbreviation Duration := Z (only parsing).

Module time.
Definition Nanosecond : Duration := 1.
Definition Second : Duration := 1000000000 * Nanosecond.
Definition Hour : Duration := 3600 * Second.

Definition Add (t : Time) (d : Duration) : Time := t + d.
Definition Before (t u : Time) : bool := t <? u.
End time.

(** [time.Time{}] *)
Definition zeroTime : Time := 0.

(** ** Constants and variables of the file *)

Definition VersionTagLatest : string := "latest".

Definition upgradeCheckInterval : Duration := 24 * time.Hour.
Definition checkUpgradeURL : string :=
  "http://upgrade-responder.longhorn.rancher.io/v1/checkupgrade".

(** ** Wire types *)

Record Version := {
  Name : string;          (* must be in semantic versioning *)
  ReleaseDate : string;
  Tags : list string;
}.

Record CheckUpgradeRequest := {
  LonghornVersion : string;
}.

Record CheckUpgradeResponse := {
  Versions : list Version;
}.

(** A setting as the handler sees it: the object's name and its value.
    [GetSetting] hands the handler an object of its own, so assigning to its
    [Value] field changes nothing in the store until [UpdateSetting]. *)
Record Setting := {
  SName : string;
  Value : string;
}.

Definition withValue (s : Setting) (v : string) : Setting :=
  {| SName := SName s; Value := v |}.

(** ** Errors

    One constructor per place an error is created; [ErrWrap] is what
    [errors.Wrapf] builds around a cause. *)

Inductive error :=
  | ErrKeyFormat (key : string)
      (* cache.SplitMetaNamespaceKey: "unexpected key format" *)
  | ErrStore (msg : string)
      (* a failure of the store's transport *)
  | ErrNotFound (name : string)
  | ErrParseBool (value : string)
  | ErrTransport (msg : string)
      (* http.Post failed *)
  | ErrDecode (msg : string)
      (* the response body is not a CheckUpgradeResponse *)
  | ErrNoLatestVersion (resp : CheckUpgradeResponse)
      (* "cannot find latest version in response: %+v" *)
  | ErrNoKey (msg : string)
      (* the key function could not name the object *)
  | ErrCouldntGetKey (obj : Setting) (cause : error)
      (* "Couldn't get key for object %#v: %v" *)
  | ErrWrap (cause : error) (msg : string).

Inductive result (A : Type) :=
  | Ok (a : A)
  | Err (e : error).
Arguments Ok {A} a.
Arguments Err {A} e.

(** [errors.Wrapf(err, format, args...)]: nil stays nil. *)
Definition Wrapf (err : option error) (msg : string) : option error :=
  match err with
  | None => None
  | Some e => Some (ErrWrap e msg)
  end.

(** The innermost error, as [errors.Cause] finds it. *)
Fixpoint Cause (e : error) : error :=
  match e with
  | ErrWrap c _ => Cause c
  | _ => e
  end.

(** ** Keys

    [strings.Split(s, "/")] and [cache.SplitMetaNamespaceKey] of client-go:
    one part is a bare name, two parts are namespace and name, anything else
    is an error. *)

Fixpoint Split (s : string) : list string :=
  match s with
  | EmptyString => [EmptyString]
  | String c rest =>
      if Ascii.eqb c "/"%char then EmptyString :: Split rest
      else match Split rest with
           | part :: parts => String c part :: parts
           | [] => [String c EmptyString]
           end
  end.

Definition SplitMetaNamespaceKey (key : string) : result (string * string) :=
  match Split key with
  | [name] => Ok (EmptyString, name)
  | [namespace; name] => Ok (namespace, name)
  | _ => Err (ErrKeyFormat key)
  end.

(** ** The version selection of [CheckLatestLonghornVersion]

    The two nested [for ... range] loops, each left by [break] at the first
    hit.  [scanTags] is the inner loop (it computes [found]), [scanVersions]
    the outer one (it computes [latestVersion], which starts as the empty
    string). *)

Fixpoint scanTags (tags : list string) : bool :=
  match tags with
  | [] => false
  | tag :: rest =>
      if decide (tag = VersionTagLatest) then true else scanTags rest
  end.

Fixpoint scanVersions (versions : list Version) : string :=
  match versions with
  | [] => EmptyString
  | v :: rest => if scanTags (Tags v) then Name v else scanVersions rest
  end.

Definition selectLatest (resp : CheckUpgradeResponse) : result string :=
  let latestVersion := scanVersions (Versions resp) in
  if decide (latestVersion = EmptyString) then Err (ErrNoLatestVersion resp)
  else Ok latestVersion.

(** ** The work queue *)

(** Modelled from the spec: the rate-limited work queue
    ([workqueue.RateLimitingInterface]) is a collaborator whose code is not
    part of the file.  The state is the one of section 4.1: an ordered list
    of pending keys, the keys being processed, the keys added again while
    being processed, and one failure counter per key.  [AddRateLimited]
    counts one more failure for the key and schedules the key for a later
    [Add]; the scheduled adds wait in [delayed], each with the number of
    failures counted before it (from which the queue derives the delay). *)
Record Queue := {
  pending : list string;
  processing : gset string;
  dirty : gset string;
  failures : gmap string nat;
  delayed : list (string * nat);
  shuttingDown : bool;
}.

Definition NumRequeues (key : string) (q : Queue) : nat :=
  default 0%nat (failures q !! key).

Definition queueAdd (key : string) (q : Queue) : Queue :=
  if decide (key ∈ processing q) then
    {| pending := pending q; processing := processing q;
       dirty := dirty q ∪ {[ key ]}; failures := failures q;
       delayed := delayed q; shuttingDown := shuttingDown q |}
  else if decide (key ∈ pending q) then q
  else
    {| pending := pending q ++ [key]; processing := processing q;
       dirty := dirty q; failures := failures q;
       delayed := delayed q; shuttingDown := shuttingDown q |}.

Definition queueAddRateLimited (key : string) (q : Queue) : Queue :=
  {| pending := pending q; processing := processing q; dirty := dirty q;
     failures := <[ key := S (NumRequeues key q) ]> (failures q);
     delayed := delayed q ++ [(key, NumRequeues key q)];
     shuttingDown := shuttingDown q |}.

Definition queueForget (key : string) (q : Queue) : Queue :=
  {| pending := pending q; processing := processing q; dirty := dirty q;
     failures := delete key (failures q);
     delayed := delayed q; shuttingDown := shuttingDown q |}.

Definition queueDone (key : string) (q : Queue) : Queue :=
  {| pending := if decide (key ∈ dirty q) then pending q ++ [key]
                else pending q;
     processing := processing q ∖ {[ key ]};
     dirty := dirty q ∖ {[ key ]};
     failures := failures q;
     delayed := delayed q; shuttingDown := shuttingDown q |}.

(** What a call of [Get] comes to: a key (now being processed), the order to
    stop, or a wait with nothing to hand out. *)
Inductive GetResult :=
  | Got (key : string) (q : Queue)
  | Quit
  | Blocked.

Definition queueGet (q : Queue) : GetResult :=
  match pending q with
  | key :: rest =>
      Got key {| pending := rest; processing := processing q ∪ {[ key ]};
                 dirty := dirty q; failures := failures q;
                 delayed := delayed q; shuttingDown := shuttingDown q |}
  | [] => if shuttingDown q then Quit else Blocked
  end.

(** ** Effects *)

Inductive QueueCall :=
  | CallGet
  | CallDone (key : string)
  | CallForget (key : string)
  | CallAddRateLimited (key : string).

Inductive Event :=
  | EvGetSetting (name : string)                        (* store read *)
  | EvUpdateSetting (s : Setting)                       (* store write *)
  | EvHttpPost (url : string) (req : CheckUpgradeRequest)
  | EvInfof (format arg : string)                       (* logrus.Infof *)
  | EvWarnf (format key : string) (err : error)         (* logrus.Warnf *)
  | EvHandleError (err : error)             (* utilruntime.HandleError *)
  | EvQueue (call : QueueCall).

(** ** The controller

    The fields the modelled functions use: the store behind [ds] (the
    value of each setting by name), the queue, the time of the last
    successful check and the running version; [trace] is the list of
    effects performed so far, oldest first. *)

Record SettingController := {
  ds : gmap string string;
  queue : Queue;
  lastUpgradeCheckedTimestamp : Time;
  version : string;
  trace : list Event;
}.

Definition emit (ev : Event) (sc : SettingController) : SettingController :=
  {| ds := ds sc; queue := queue sc;
     lastUpgradeCheckedTimestamp := lastUpgradeCheckedTimestamp sc;
     version := version sc; trace := trace sc ++ [ev] |}.

Definition setStore (m : gmap string string) (sc : SettingController)
  : SettingController :=
  {| ds := m; queue := queue sc;
     lastUpgradeCheckedTimestamp := lastUpgradeCheckedTimestamp sc;
     version := version sc; trace := trace sc |}.

Definition setQueue (q : Queue) (sc : SettingController)
  : SettingController :=
  {| ds := ds sc; queue := q;
     lastUpgradeCheckedTimestamp := lastUpgradeCheckedTimestamp sc;
     version := version sc; trace := trace sc |}.

Definition setLastUpgradeCheckedTimestamp (t : Time) (sc : SettingController)
  : SettingController :=
  {| ds := ds sc; queue := queue sc; lastUpgradeCheckedTimestamp := t;
     version := version sc; trace := trace sc |}.

(** ** The outside world during one invocation

    What the handler cannot decide: the reading of the clock, the outcome
    of the HTTP round trip and of decoding its body, and whether the store
    fails an operation. *)

Inductive HttpOutcome :=
  | PostFailed (e : error)
  | DecodeFailed (e : error)
  | Decoded (resp : CheckUpgradeResponse).

Inductive StoreOp :=
  | OpGet (name : string)
  | OpUpdate (s : Setting).

Record Env := {
  now : Time;
  post : CheckUpgradeRequest -> HttpOutcome;
  storeFault : StoreOp -> option error;
}.

(** ** The monad: environment, controller state, Go's [if err != nil
    { return err }] *)

Definition M (A : Type) : Type :=
  Env -> SettingController -> result A * SettingController.

Instance M_ret : MRet M := fun A a _ sc => (Ok a, sc).

Instance M_bind : MBind M := fun A B k m env sc =>
  match m env sc with
  | (Ok a, sc') => k a env sc'
  | (Err e, sc') => (Err e, sc')
  end.

Definition fail {A} (e : error) : M A := fun _ sc => (Err e, sc).

Definition lift {A} (r : result A) : M A := fun _ sc => (r, sc).

Definition perform (f : SettingController -> SettingController) : M unit :=
  fun _ sc => (Ok tt, f sc).

Definition ask : M Env := fun env sc => (Ok env, sc).

Definition get : M SettingController := fun _ sc => (Ok sc, sc).

(** ** The settings store *)

(** [strconv.ParseBool]. *)
Definition ParseBool (s : string) : result bool :=
  if decide (s ∈ ["1"; "t"; "T"; "TRUE"; "true"; "True"]) then Ok true
  else if decide (s ∈ ["0"; "f"; "F"; "FALSE"; "false"; "False"]) then Ok false
  else Err (ErrParseBool s).

(** Modelled from the spec: the datastore package is not part of the file.
    Section 6 gives its interface: [Get(name) -> Setting | NotFoundError],
    [GetAsBool(name) -> bool | ParseError], [Update(Setting) -> Setting |
    error]; a write replaces the value (last writer wins).  Any operation
    may also fail in transport, as the environment decides.  [GetSetting]
    is [Get]. *)
Definition GetSetting (name : string) : M Setting :=
  perform (emit (EvGetSetting name));;
  env ← ask;
  sc ← get;
  match storeFault env (OpGet name) with
  | Some e => fail e
  | None =>
      match ds sc !! name with
      | Some v => mret {| SName := name; Value := v |}
      | None => fail (ErrNotFound name)
      end
  end.

(** Modelled from the spec: [GetAsBool], the value read and parsed. *)
Definition GetSettingAsBool (name : string) : M bool :=
  s ← GetSetting name;
  lift (ParseBool (Value s)).

(** Modelled from the spec: [Update], which stores the setting's value
    under its name unless the store fails. *)
Definition UpdateSetting (s : Setting) : M Setting :=
  perform (emit (EvUpdateSetting s));;
  env ← ask;
  match storeFault env (OpUpdate s) with
  | Some e => fail e
  | None =>
      sc ← get;
      perform (setStore (<[ SName s := Value s ]> (ds sc)));;
      mret s
  end.

(** ** Queue calls made by the controller: the call is recorded and the
    queue changes as the model says. *)

Definition callForget (key : string) (sc : SettingController)
  : SettingController :=
  setQueue (queueForget key (queue sc)) (emit (EvQueue (CallForget key)) sc).

Definition callAddRateLimited (key : string) (sc : SettingController)
  : SettingController :=
  setQueue (queueAddRateLimited key (queue sc))
           (emit (EvQueue (CallAddRateLimited key)) sc).

Definition callDone (key : string) (sc : SettingController)
  : SettingController :=
  setQueue (queueDone key (queue sc)) (emit (EvQueue (CallDone key)) sc).

(** Go's [error] result: [None] is nil. *)
Definition errorOf {A} (r : result A) : option error :=
  match r with
  | Ok _ => None
  | Err e => Some e
  end.

Section Controller.

(** Declared in other files of the program: the retry budget of package
    controller, the two setting names of package types, and the key
    function of the controller framework. *)
Variable maxRetries : nat.
Variable SettingNameUpgradeChecker : string.
Variable SettingNameLatestLonghornVersion : string.
Variable KeyFunc : Setting -> result string.

(** Encoding the request (a struct with one string field) cannot fail;
    the round trip and the decoding are the environment's. *)
Definition CheckLatestLonghornVersion : M string :=
  sc ← get;
  let req := {| LonghornVersion := version sc |} in
  perform (emit (EvHttpPost checkUpgradeURL req));;
  env ← ask;
  match post env req with
  | PostFailed err => fail err
  | DecodeFailed err => fail err
  | Decoded resp => lift (selectLatest resp)
  end.

(** The body of [syncSetting]; an [Err] is a [return err].  The setting
    read from the store is the handler's own copy: assigning to its [Value]
    reaches the store only through [UpdateSetting]. *)
Definition syncSettingBody (key : string) : M unit :=
  '(_, name) ← lift (SplitMetaNamespaceKey key);
  (* We only process upgrade checker for now *)
  if decide (name ≠ SettingNameUpgradeChecker) then mret tt else
  upgradeCheckerEnabled ← GetSettingAsBool SettingNameUpgradeChecker;
  latestLonghornVersion ← GetSetting SettingNameLatestLonghornVersion;
  if Bool.eqb upgradeCheckerEnabled false then
    (if decide (Value latestLonghornVersion ≠ EmptyString) then
       _ ← UpdateSetting (withValue latestLonghornVersion EmptyString);
       mret tt
     else mret tt);;
    (* reset timestamp so it can be triggered immediately when
       setting changes next time *)
    perform (setLastUpgradeCheckedTimestamp zeroTime)
  else
  env ← ask;
  let now := now env in
  sc ← get;
  if time.Before now
       (time.Add (lastUpgradeCheckedTimestamp sc) upgradeCheckInterval)
  then mret tt else
  let oldVersion := Value latestLonghornVersion in
  newVersion ← CheckLatestLonghornVersion;
  let latestLonghornVersion := withValue latestLonghornVersion newVersion in
  perform (setLastUpgradeCheckedTimestamp now);;
  if decide (Value latestLonghornVersion ≠ oldVersion) then
    perform (emit (EvInfof "New Longhorn version %v is available"
                           (Value latestLonghornVersion)));;
    _ ← UpdateSetting latestLonghornVersion;
    mret tt
  else mret tt.

(** [syncSetting]: the body, then the deferred [errors.Wrapf] on the named
    result. *)
Definition syncSetting (key : string) (env : Env) (sc : SettingController)
  : option error * SettingController :=
  let '(r, sc') := syncSettingBody key env sc in
  (Wrapf (errorOf r) ("fail to sync setting for " ++ key), sc').

Definition handleErr (err : option error) (key : string)
           (sc : SettingController) : SettingController :=
  match err with
  | None => callForget key sc
  | Some e =>
      if (NumRequeues key (queue sc) <? maxRetries)%nat then
        callAddRateLimited key
          (emit (EvWarnf "Error syncing Longhorn setting %v: %v" key e) sc)
      else
        callForget key
          (emit (EvWarnf "Dropping Longhorn setting %v out of the queue: %v"
                         key e)
             (emit (EvHandleError e) sc))
  end.

(** One turn of the worker: [None] when [Get] has nothing to hand out
    and waits; otherwise the boolean the function returns.  [Done] is
    deferred, so it runs last. *)
Definition processNextWorkItem (env : Env) (sc : SettingController)
  : option (bool * SettingController) :=
  match queueGet (queue sc) with
  | Blocked => None
  | Quit => Some (false, emit (EvQueue CallGet) sc)
  | Got key q =>
      let sc := setQueue q (emit (EvQueue CallGet) sc) in
      let '(err, sc) := syncSetting key env sc in
      let sc := handleErr err key sc in
      Some (true, callDone key sc)
  end.

Definition enqueueSetting (setting : Setting) (sc : SettingController)
  : SettingController :=
  match KeyFunc setting with
  | Err err => emit (EvHandleError (ErrCouldntGetKey setting err)) sc
  | Ok key => callAddRateLimited key sc
  end.

End Controller.

(** ** Construction and the worker loop *)

(** Modelled from the spec: the queue [workqueue.NewNamedRateLimitingQueue]
    returns, with nothing pending, nothing counted and not shut down. *)
Definition newQueue : Queue :=
  {| pending := []; processing := ∅; dirty := ∅; failures := ∅;
     delayed := []; shuttingDown := false |}.

(** [NewSettingController]: the store and the running version are handed
    in, the queue is new, and [lastUpgradeCheckedTimestamp], which the
    struct literal leaves out, is the zero time.  (The event recorder and
    the informer's callbacks, which all end in [enqueueSetting], are the
    wiring around the fields.) *)
Definition NewSettingController (store : gmap string string)
           (version : string) : SettingController :=
  {| ds := store; queue := newQueue;
     lastUpgradeCheckedTimestamp := zeroTime;
     version := version; trace := [] |}.


Section Worker.

Variable maxRetries : nat.
Variable SettingNameUpgradeChecker : string.
Variable SettingNameLatestLonghornVersion : string.


End Worker.

(** ** Reading a trace *)

Definition storeReads (tr : list Event) : list string :=
  omap (fun ev => match ev with EvGetSetting n => Some n | _ => None end) tr.

Definition storeWrites (tr : list Event) : list Setting :=
  omap (fun ev => match ev with EvUpdateSetting s => Some s | _ => None end) tr.

Definition networkCalls (tr : list Event) : list CheckUpgradeRequest :=
  omap (fun ev => match ev with EvHttpPost _ r => Some r | _ => None end) tr.

Definition queueCalls (tr : list Event) : list QueueCall :=
  omap (fun ev => match ev with EvQueue c => Some c | _ => None end) tr.

Definition reported (tr : list Event) : list error :=
  omap (fun ev => match ev with EvHandleError e => Some e | _ => None end) tr.


(** No part of a key here contains the separator. *)
Fixpoint noSlash (s : string) : bool :=
  match s with
  | EmptyString => true
  | String c rest => negb (Ascii.eqb c "/"%char) && noSlash rest
  end.

(** ** The words of the specification *)

(** "The first descriptor whose Tags contains the literal tag latest". *)
Definition firstLatest (resp : CheckUpgradeResponse) : option Version :=
  List.find (fun v => bool_decide (VersionTagLatest ∈ Tags v)) (Versions resp).

(** A well-formed response: every descriptor carries a version name (a
    semantic version is never the empty string). *)
Definition wellFormed (resp : CheckUpgradeResponse) : Prop :=
  Forall (fun v => Name v ≠ EmptyString) (Versions resp).

(** What the version check comes to, given the outcome of the round trip. *)
Definition checkResult (env : Env) (version : string) : result string :=
  match post env {| LonghornVersion := version |} with
  | PostFailed err => Err err
  | DecodeFailed err => Err err
  | Decoded resp => selectLatest resp
  end.

(** The handler is past its two loads: the store answers both reads, the
    flag parses to [enabled] and the cached latest version is [cached]. *)
Definition loaded (upgradeChecker latestVersion : string)
           (env : Env) (sc : SettingController)
           (enabled : bool) (cached : string) : Prop :=
  storeFault env (OpGet upgradeChecker) = None ∧
  (∃ flag, ds sc !! upgradeChecker = Some flag ∧ ParseBool flag = Ok enabled) ∧
  storeFault env (OpGet latestVersion) = None ∧
  ds sc !! latestVersion = Some cached.

(** The key names the setting [name], in any namespace. *)
Definition keyNames (key name : string) : Prop :=
  ∃ namespace, SplitMetaNamespaceKey key = Ok (namespace, name).

(** ** Sample data *)

Module Sample.

Definition maxRetries : nat := 3.
Definition upgradeChecker : string := "upgrade-checker".
Definition latestVersion : string := "latest-longhorn-version".

(** A key function in the manner of the framework's: namespace and name,
    and an error for an object without a name. *)
Definition KeyFunc (s : Setting) : result string :=
  if decide (SName s = EmptyString) then Err (ErrNoKey "object has no meta")
  else Ok ("longhorn-system/" ++ SName s)%string.

Definition key : string := "longhorn-system/upgrade-checker".
Definition otherKey : string := "longhorn-system/backup-target".
Definition badKey : string := "a/b/c".

(** The response of section 8. *)
Definition response : CheckUpgradeResponse :=
  {| Versions :=
       [ {| Name := "1.0.0"; ReleaseDate := ""; Tags := ["stable"] |};
         {| Name := "1.1.0"; ReleaseDate := ""; Tags := ["latest"] |} ] |}.

(** Two descriptors tagged latest, the older one first. *)
Definition twoLatest : CheckUpgradeResponse :=
  {| Versions :=
       [ {| Name := "1.0.0"; ReleaseDate := ""; Tags := ["latest"] |};
         {| Name := "2.0.0"; ReleaseDate := ""; Tags := ["latest"] |} ] |}.

(** A nameless descriptor tagged latest before a named one. *)
Definition namelessFirst : CheckUpgradeResponse :=
  {| Versions :=
       [ {| Name := ""; ReleaseDate := ""; Tags := ["latest"] |};
         {| Name := "1.1.0"; ReleaseDate := ""; Tags := ["stable"; "latest"] |} ] |}.

Definition noLatest : CheckUpgradeResponse :=
  {| Versions :=
       [ {| Name := "1.0.0"; ReleaseDate := ""; Tags := ["stable"] |} ] |}.

Definition emptyQueue : Queue :=
  {| pending := []; processing := ∅; dirty := ∅; failures := ∅;
     delayed := []; shuttingDown := false |}.

Definition queueOf (keys : list string) : Queue :=
  {| pending := keys; processing := ∅; dirty := ∅; failures := ∅;
     delayed := []; shuttingDown := false |}.

(** A controller whose store holds the flag and the cached version. *)
Definition controller (flag cached : string) (last : Time) (q : Queue)
  : SettingController :=
  {| ds := {[ upgradeChecker := flag; latestVersion := cached ]};
     queue := q;
     lastUpgradeCheckedTimestamp := last;
     version := "v0.3.0";
     trace := [] |}.

Definition noFault : StoreOp -> option error := fun _ => None.

Definition failWrites : StoreOp -> option error :=
  fun op => match op with
            | OpGet _ => None
            | OpUpdate _ => Some (ErrStore "conflict")
            end.

Definition day : Duration := 24 * time.Hour.

Definition env (t : Time) (out : HttpOutcome)
           (fault : StoreOp -> option error) : Env :=
  {| now := t; post := fun _ => out; storeFault := fault |}.

(** The handler and the worker's turn with these constants. *)
Definition sync : string -> Env -> SettingController
                  -> option error * SettingController :=
  syncSetting upgradeChecker latestVersion.

Definition turn : Env -> SettingController
                  -> option (bool * SettingController) :=
  processNextWorkItem maxRetries upgradeChecker latestVersion.

End Sample.

(** * Proof tools *)

Ltac run :=
  unfold syncSetting, syncSettingBody, GetSettingAsBool, GetSetting,
    UpdateSetting, CheckLatestLonghornVersion, checkResult, mbind, M_bind,
    mret, M_ret, perform, ask, get, lift, fail; cbn.

(** Use every equation at hand that applies to the running term. *)
Ltac steps :=
  repeat match goal with
         | H : ?l = _ |- context [?l] => rewrite H; cbn
         end.

(** Bring the trace of a state built with [emit] to the trace it started
    from followed by the new events, and read it. *)
Ltac traces :=
  cbn;
  unfold storeWrites, networkCalls, queueCalls, reported;
  rewrite <- ?app_assoc, ?omap_app; cbn; rewrite ?app_nil_r.

(** Closed goals on the sample data. *)
Ltac compute_it := vm_compute; first [reflexivity | done].

Ltac sample_key := exists "longhorn-system"%string; compute_it.

Ltac sample_ready flag :=
  split_and!; [compute_it | exists flag; split; compute_it
               | compute_it | compute_it].

(** * Properties *)

(** ** The version selection follows the specification's wording *)

Lemma scanTags_elem_of (tags : list string) :
  scanTags tags = bool_decide (VersionTagLatest ∈ tags).
Proof.
  induction tags as [|tag rest IH]; cbn.
  - symmetry. apply bool_decide_eq_false_2. by intros ?%elem_of_nil.
  - destruct (decide (tag = VersionTagLatest)) as [->|Htag].
    + symmetry. apply bool_decide_eq_true_2. by left.
    + rewrite IH. apply bool_decide_ext. rewrite elem_of_cons.
      split; [by right | by intros [?|?]].
Qed.

Lemma scanVersions_firstLatest (resp : CheckUpgradeResponse) :
  scanVersions (Versions resp) =
  match firstLatest resp with
  | Some d => Name d
  | None => EmptyString
  end.
Proof.
  unfold firstLatest.
  induction (Versions resp) as [|v rest IH]; cbn; [done|].
  rewrite scanTags_elem_of. by destruct (bool_decide _).
Qed.

Lemma firstLatest_None (resp : CheckUpgradeResponse) :
  firstLatest resp = None <->
  Forall (fun v => VersionTagLatest ∉ Tags v) (Versions resp).
Proof.
  unfold firstLatest.
  induction (Versions resp) as [|v rest IH]; cbn.
  - split; [constructor | done].
  - case_bool_decide as Hv.
    + split; [done|]. intros Hall. by apply Forall_cons_1 in Hall as [? _].
    + rewrite IH, Forall_cons. split; [done | by intros [_ ?]].
Qed.

Lemma selectLatest_firstLatest (resp : CheckUpgradeResponse) :
  selectLatest resp =
  match firstLatest resp with
  | Some d => if decide (Name d = EmptyString)
              then Err (ErrNoLatestVersion resp) else Ok (Name d)
  | None => Err (ErrNoLatestVersion resp)
  end.
Proof.
  unfold selectLatest. rewrite scanVersions_firstLatest.
  destruct (firstLatest resp); [done|]. by rewrite decide_True.
Qed.

Lemma CheckLatestLonghornVersion_run (env : Env) (sc : SettingController) :
  CheckLatestLonghornVersion env sc =
  (checkResult env (version sc),
   emit (EvHttpPost checkUpgradeURL {| LonghornVersion := version sc |}) sc).
Proof.
  unfold CheckLatestLonghornVersion, checkResult, mbind, M_bind, perform,
    ask, get, lift, fail. cbn.
  by destruct (post env _).
Qed.

Section Handler.

Context (maxRetries : nat).
Context (SettingNameUpgradeChecker SettingNameLatestLonghornVersion : string).
Context (KeyFunc : Setting -> result string).

Local Abbreviation sync :=
  (syncSetting SettingNameUpgradeChecker SettingNameLatestLonghornVersion).
Local Abbreviation body :=
  (syncSettingBody SettingNameUpgradeChecker SettingNameLatestLonghornVersion).
Local Abbreviation ready :=
  (loaded SettingNameUpgradeChecker SettingNameLatestLonghornVersion).
Local Abbreviation turn :=
  (processNextWorkItem maxRetries SettingNameUpgradeChecker
                       SettingNameLatestLonghornVersion).
Local Abbreviation cachedSetting v :=
  {| SName := SettingNameLatestLonghornVersion; Value := v |}.
Local Abbreviation afterLoads sc :=
  (emit (EvGetSetting SettingNameLatestLonghornVersion)
        (emit (EvGetSetting SettingNameUpgradeChecker) sc)).

(** The handler touches neither the queue nor the running version. *)
Lemma syncSetting_frame key env sc :
  queue (sync key env sc).2 = queue sc ∧
  version (sync key env sc).2 = version sc.
Proof. run. repeat (case_match; simplify_eq/=); done. Qed.

(** State 2, the feature is off. *)
Lemma body_disabled key env sc cached :
  keyNames key SettingNameUpgradeChecker ->
  ready env sc false cached ->
  body key env sc =
  if decide (cached = EmptyString) then
    (Ok tt, setLastUpgradeCheckedTimestamp zeroTime (afterLoads sc))
  else
    let sc1 := emit (EvUpdateSetting (cachedSetting EmptyString))
                    (afterLoads sc) in
    match storeFault env (OpUpdate (cachedSetting EmptyString)) with
    | Some e => (Err e, sc1)
    | None =>
        (Ok tt,
         setLastUpgradeCheckedTimestamp zeroTime
           (setStore (<[ SettingNameLatestLonghornVersion := EmptyString ]>
                        (ds sc)) sc1))
    end.
Proof.
  intros [ns Hkey] (Hf1 & (flag & Hflag & Hparse) & Hf2 & Hcached).
  run. steps. destruct (decide (_ ≠ _)); [done|]. steps.
  destruct (decide (cached = EmptyString)) as [->|Hne]; cbn; [done|].
  destruct (decide (cached ≠ EmptyString)); [|done]. unfold withValue; cbn.
  destruct (storeFault env (OpUpdate _)); reflexivity.
Qed.

(** State 3, the feature is on and the last check is recent. *)
Lemma body_within_window key env sc cached :
  keyNames key SettingNameUpgradeChecker ->
  ready env sc true cached ->
  now env < lastUpgradeCheckedTimestamp sc + upgradeCheckInterval ->
  body key env sc = (Ok tt, afterLoads sc).
Proof.
  intros [ns Hkey] (Hf1 & (flag & Hflag & Hparse) & Hf2 & Hcached) Hnow.
  run. steps. destruct (decide (_ ≠ _)); [done|]. steps.
  unfold time.Before, time.Add.
  by destruct (Z.ltb_spec (now env)
                 (lastUpgradeCheckedTimestamp sc + upgradeCheckInterval));
    [|lia].
Qed.

(** State 4, the feature is on and the check is due. *)
Lemma body_check_due key env sc cached :
  keyNames key SettingNameUpgradeChecker ->
  ready env sc true cached ->
  lastUpgradeCheckedTimestamp sc + upgradeCheckInterval <= now env ->
  body key env sc =
  let sc1 := emit (EvHttpPost checkUpgradeURL
                              {| LonghornVersion := version sc |})
                  (afterLoads sc) in
  match checkResult env (version sc) with
  | Err e => (Err e, sc1)
  | Ok v =>
      let sc2 := setLastUpgradeCheckedTimestamp (now env) sc1 in
      if decide (v = cached) then (Ok tt, sc2)
      else
        let sc3 := emit (EvUpdateSetting (cachedSetting v))
                        (emit (EvInfof "New Longhorn version %v is available"
                                       v) sc2) in
        match storeFault env (OpUpdate (cachedSetting v)) with
        | Some e => (Err e, sc3)
        | None =>
            (Ok tt,
             setStore (<[ SettingNameLatestLonghornVersion := v ]> (ds sc))
                      sc3)
        end
  end.
Proof.
  intros [ns Hkey] (Hf1 & (flag & Hflag & Hparse) & Hf2 & Hcached) Hnow.
  run. steps. destruct (decide (_ ≠ _)); [done|]. steps.
  unfold time.Before, time.Add.
  destruct (Z.ltb_spec (now env)
              (lastUpgradeCheckedTimestamp sc + upgradeCheckInterval));
    [lia|].
  destruct (post env _) as [e|e|resp]; cbn; try done.
  destruct (selectLatest resp) as [v|e]; cbn; [|done].
  destruct (decide (v = cached)) as [->|Hne].
  - by destruct (decide (cached ≠ cached)).
  - destruct (decide (v ≠ cached)); [|done]. unfold withValue; cbn.
    destruct (storeFault env (OpUpdate _)); reflexivity.
Qed.

(** What the handler appends to the trace holds no queue call and no
    reported error. *)
Lemma syncSetting_trace key env sc :
  ∃ evs, trace (sync key env sc).2 = trace sc ++ evs ∧
         queueCalls evs = [] ∧ reported evs = [].
Proof.
  run.
  repeat (case_match; simplify_eq/=);
    rewrite <- ?app_assoc;
    first [ by eexists; split; [reflexivity|]
          | by exists []; rewrite app_nil_r ].
Qed.

Lemma queueGet_Got q key q' :
  queueGet q = Got key q' ->
  failures q' = failures q ∧ delayed q' = delayed q.
Proof.
  unfold queueGet. destruct (pending q); [by destruct (shuttingDown q)|].
  by intros [= <- <-].
Qed.

(** C2: Debounce.  With the upgrade-checker key, the feature enabled and
    the clock strictly before LastCheckedAt + interval (the interval is
    24 hours), the handler returns success after its two reads: no
    network call, no store write, LastCheckedAt and the store (hence the
    cached version) as they were. *)
Theorem debounce_window_is_noop key env sc cached :
  keyNames key SettingNameUpgradeChecker ->
  ready env sc true cached ->
  now env < lastUpgradeCheckedTimestamp sc + upgradeCheckInterval ->
  upgradeCheckInterval = 24 * 60 * 60 * 1000000000 ∧
  ∃ sc',
    sync key env sc = (None, sc') ∧
    trace sc' = trace sc ++ [EvGetSetting SettingNameUpgradeChecker;
                             EvGetSetting SettingNameLatestLonghornVersion] ∧
    networkCalls (trace sc') = networkCalls (trace sc) ∧
    storeWrites (trace sc') = storeWrites (trace sc) ∧
    lastUpgradeCheckedTimestamp sc' = lastUpgradeCheckedTimestamp sc ∧
    ds sc' = ds sc ∧
    ds sc' !! SettingNameLatestLonghornVersion = Some cached.
Proof.
  intros Hkey Hready Hnow. split; [reflexivity|].
  unfold syncSetting. rewrite (body_within_window _ _ _ cached) by done.
  eexists; split; [reflexivity|]. cbn.
  rewrite <- app_assoc. unfold networkCalls, storeWrites.
  rewrite !omap_app, !app_nil_r.
  destruct Hready as (_ & _ & _ & Hcached). done.
Qed.

(** C8: Other settings.  For a key naming any setting but the upgrade
    checker, the handler returns success at once and changes nothing: no
    store read or write, no network call, LastCheckedAt untouched.  The
    worker then forgets the key: nothing is scheduled for a retry. *)
Theorem other_settings_are_ignored key name env :
  keyNames key name ->
  name ≠ SettingNameUpgradeChecker ->
  (∀ sc, sync key env sc = (None, sc)) ∧
  (∀ sc q', queueGet (queue sc) = Got key q' ->
     ∃ sc', turn env sc = Some (true, sc') ∧
            trace sc' = trace sc ++ [EvQueue CallGet;
                                     EvQueue (CallForget key);
                                     EvQueue (CallDone key)] ∧
            delayed (queue sc') = delayed (queue sc) ∧
            NumRequeues key (queue sc') = 0%nat ∧
            lastUpgradeCheckedTimestamp sc' = lastUpgradeCheckedTimestamp sc ∧
            ds sc' = ds sc).
Proof.
  intros [ns Hkey] Hname.
  assert (Hsync : ∀ sc, sync key env sc = (None, sc)).
  { intros sc. run. steps. by destruct (decide (name ≠ _)). }
  split; [done|]. intros sc q' Hget.
  unfold processNextWorkItem. rewrite Hget, Hsync. cbn.
  eexists; split; [reflexivity|]. cbn.
  apply queueGet_Got in Hget as [Hfail Hdel].
  rewrite <- !app_assoc. split_and!; try done.
  unfold NumRequeues; cbn. by rewrite lookup_delete_eq.
Qed.

(** C7: The worker's turn.  For a key handed out by Get: on a nil result
    the worker calls Forget; on an error it calls AddRateLimited while
    NumRequeues(key) < maxRetries, and otherwise reports the error and
    calls Forget; Done is the last call in every case. *)
Theorem worker_turn env sc key q' err sc2 :
  queueGet (queue sc) = Got key q' ->
  sync key env (setQueue q' (emit (EvQueue CallGet) sc)) = (err, sc2) ->
  ∃ sc',
    turn env sc = Some (true, sc') ∧
    trace sc' =
      trace sc2 ++
      match err with
      | None => [EvQueue (CallForget key)]
      | Some e =>
          if (NumRequeues key (queue sc) <? maxRetries)%nat then
            [EvWarnf "Error syncing Longhorn setting %v: %v" key e;
             EvQueue (CallAddRateLimited key)]
          else
            [EvHandleError e;
             EvWarnf "Dropping Longhorn setting %v out of the queue: %v"
                     key e;
             EvQueue (CallForget key)]
      end ++ [EvQueue (CallDone key)] ∧
    queueCalls (trace sc') =
      queueCalls (trace sc) ++
      [CallGet;
       match err with
       | None => CallForget key
       | Some _ =>
           if (NumRequeues key (queue sc) <? maxRetries)%nat
           then CallAddRateLimited key else CallForget key
       end;
       CallDone key] ∧
    reported (trace sc') =
      reported (trace sc) ++
      match err with
      | None => []
      | Some e =>
          if (NumRequeues key (queue sc) <? maxRetries)%nat then []
          else [e]
      end.
Proof.
  intros Hget Hsync.
  destruct (syncSetting_frame key env
              (setQueue q' (emit (EvQueue CallGet) sc))) as [Hq _].
  destruct (syncSetting_trace key env
              (setQueue q' (emit (EvQueue CallGet) sc)))
    as (evs & Htr & Hqc & Hrep).
  rewrite Hsync in Hq, Htr. cbn in Hq, Htr.
  unfold processNextWorkItem. rewrite Hget, Hsync.
  eexists; split; [reflexivity|].
  apply queueGet_Got in Hget as [Hfail _].
  assert (Hnum : NumRequeues key (queue sc2) = NumRequeues key (queue sc)).
  { unfold NumRequeues. by rewrite Hq, Hfail. }
  unfold handleErr. destruct err as [e|]; [rewrite Hnum|];
    [destruct (_ <? _)%nat|]; cbn;
    rewrite <- ?app_assoc; (split; [done|]);
    rewrite Htr; unfold queueCalls, reported in *;
    rewrite !omap_app, ?Hqc, ?Hrep; cbn;
    rewrite <- ?app_assoc, ?app_nil_r; done.
Qed.

(** A failed check, as the handler passes it on (shared by the results on
    failed checks). *)
Lemma check_failure_passed_on key env sc cached e :
  keyNames key SettingNameUpgradeChecker ->
  ready env sc true cached ->
  lastUpgradeCheckedTimestamp sc + upgradeCheckInterval <= now env ->
  checkResult env (version sc) = Err e ->
  ∃ sc',
    sync key env sc =
      (Some (ErrWrap e ("fail to sync setting for " ++ key)), sc') ∧
    lastUpgradeCheckedTimestamp sc' = lastUpgradeCheckedTimestamp sc ∧
    queue sc' = queue sc ∧
    ds sc' = ds sc ∧
    trace sc' =
      trace sc ++ [EvGetSetting SettingNameUpgradeChecker;
                   EvGetSetting SettingNameLatestLonghornVersion;
                   EvHttpPost checkUpgradeURL
                              {| LonghornVersion := version sc |}].
Proof.
  intros Hkey Hready Hdue Hcheck.
  unfold syncSetting. rewrite (body_check_due _ _ _ cached) by done.
  cbn. rewrite Hcheck.
  eexists; split; [reflexivity|]. cbn. by rewrite <- !app_assoc.
Qed.

(** C3 (amended): Disabled.  With the upgrade-checker key and
    the flag off: when the cached latest version is empty nothing is
    written; when it is not, the cleared setting is written to the store.
    If that write fails, the handler returns the error (wrapped with the
    key) and LastCheckedAt and the store stay as they were; otherwise
    LastCheckedAt is reset to the zero time, the cached value is empty and
    the handler returns success.  There is no network call. *)
Theorem disabled_clears_then_resets key env sc cached :
  keyNames key SettingNameUpgradeChecker ->
  ready env sc false cached ->
  ∃ err sc',
    sync key env sc = (err, sc') ∧
    networkCalls (trace sc') = networkCalls (trace sc) ∧
    storeWrites (trace sc') =
      storeWrites (trace sc) ++
      (if decide (cached = EmptyString) then []
       else [cachedSetting EmptyString]) ∧
    match (if decide (cached = EmptyString) then None
           else storeFault env (OpUpdate (cachedSetting EmptyString))) with
    | None =>
        err = None ∧
        lastUpgradeCheckedTimestamp sc' = zeroTime ∧
        ds sc' = <[ SettingNameLatestLonghornVersion := EmptyString ]> (ds sc)
    | Some e =>
        err = Some (ErrWrap e ("fail to sync setting for " ++ key)) ∧
        lastUpgradeCheckedTimestamp sc' = lastUpgradeCheckedTimestamp sc ∧
        ds sc' = ds sc
    end.
Proof.
  intros Hkey Hready.
  unfold syncSetting. rewrite (body_disabled _ _ _ cached) by done.
  destruct Hready as (_ & _ & _ & Hcached).
  unfold networkCalls, storeWrites.
  destruct (decide (cached = EmptyString)) as [->|Hne]; cbn.
  - do 2 eexists; split; [reflexivity|]. cbn.
    rewrite <- !app_assoc, !omap_app, !app_nil_r.
    by rewrite insert_id.
  - destruct (storeFault env (OpUpdate _)) as [e|];
      do 2 eexists; (split; [reflexivity|]); cbn;
      rewrite <- !app_assoc, !omap_app; cbn; by rewrite ?app_nil_r.
Qed.

(** C6 (amended): A failed check.  When the handler reaches
    the enabled, debounce-elapsed state and the version check fails with
    an error, the handler returns that error wrapped with the message
    "fail to sync setting for <key>" (the check's error is its cause);
    LastCheckedAt keeps its value and nothing is written to the store. *)
Theorem failed_check_is_returned_wrapped key env sc cached e :
  keyNames key SettingNameUpgradeChecker ->
  ready env sc true cached ->
  lastUpgradeCheckedTimestamp sc + upgradeCheckInterval <= now env ->
  checkResult env (version sc) = Err e ->
  ∃ sc',
    sync key env sc =
      (Some (ErrWrap e ("fail to sync setting for " ++ key)), sc') ∧
    Cause (ErrWrap e ("fail to sync setting for " ++ key)) = Cause e ∧
    lastUpgradeCheckedTimestamp sc' = lastUpgradeCheckedTimestamp sc ∧
    storeWrites (trace sc') = storeWrites (trace sc) ∧
    ds sc' = ds sc ∧
    networkCalls (trace sc') =
      networkCalls (trace sc) ++ [ {| LonghornVersion := version sc |} ].
Proof.
  intros Hkey Hready Hdue Hcheck.
  destruct (check_failure_passed_on key env sc cached e)
    as (sc' & Hrun & Hlast & _ & Hds & Htr); try done.
  exists sc'. rewrite Htr. split_and!; try done; by traces.
Qed.

(** C1 (amended): A successful check.  When the handler is
    enabled, past the debounce window and the check returns a version, it
    sets LastCheckedAt to the current time in every case, and it writes
    the cached latest-version setting exactly when the version differs
    from the cached value.  Of two consecutive successful checks that
    return the same version (the store answering, the second call past
    the window of the first), the second writes nothing: together they
    write once when the version differs from the value cached before the
    first check, and not at all when it equals it. *)
Theorem successful_check_writes_on_change key env sc cached v :
  keyNames key SettingNameUpgradeChecker ->
  ready env sc true cached ->
  lastUpgradeCheckedTimestamp sc + upgradeCheckInterval <= now env ->
  checkResult env (version sc) = Ok v ->
  ∃ err sc',
    sync key env sc = (err, sc') ∧
    lastUpgradeCheckedTimestamp sc' = now env ∧
    storeWrites (trace sc') =
      storeWrites (trace sc) ++
      (if decide (v = cached) then [] else [cachedSetting v]) ∧
    (SettingNameUpgradeChecker ≠ SettingNameLatestLonghornVersion ->
     storeFault env (OpUpdate (cachedSetting v)) = None ->
     ∀ env2,
       storeFault env2 (OpGet SettingNameUpgradeChecker) = None ->
       storeFault env2 (OpGet SettingNameLatestLonghornVersion) = None ->
       now env + upgradeCheckInterval <= now env2 ->
       checkResult env2 (version sc) = Ok v ->
       ∃ sc'',
         err = None ∧
         sync key env2 sc' = (None, sc'') ∧
         lastUpgradeCheckedTimestamp sc'' = now env2 ∧
         storeWrites (trace sc'') = storeWrites (trace sc') ∧
         length (networkCalls (trace sc'')) =
           (length (networkCalls (trace sc)) + 2)%nat ∧
         length (storeWrites (trace sc'')) =
           (length (storeWrites (trace sc)) +
            (if decide (v = cached) then 0 else 1))%nat).
Proof.
  intros Hkey Hready Hdue Hcheck.
  pose proof Hready as (Hf1 & (flag & Hflag & Hparse) & Hf2 & Hcached).
  unfold syncSetting at 1. rewrite (body_check_due _ _ _ cached) by done.
  cbn. rewrite Hcheck.
  assert (Hsecond : ∀ sc1 env2,
    ds sc1 !! SettingNameUpgradeChecker = Some flag ->
    ds sc1 !! SettingNameLatestLonghornVersion = Some v ->
    lastUpgradeCheckedTimestamp sc1 = now env ->
    version sc1 = version sc ->
    storeFault env2 (OpGet SettingNameUpgradeChecker) = None ->
    storeFault env2 (OpGet SettingNameLatestLonghornVersion) = None ->
    now env + upgradeCheckInterval <= now env2 ->
    checkResult env2 (version sc) = Ok v ->
    ∃ sc'', sync key env2 sc1 = (None, sc'') ∧
            lastUpgradeCheckedTimestamp sc'' = now env2 ∧
            storeWrites (trace sc'') = storeWrites (trace sc1) ∧
            networkCalls (trace sc'') =
              networkCalls (trace sc1) ++
              [ {| LonghornVersion := version sc |} ]).
  { intros sc1 env2 Hflag1 Hv1 Hlast1 Hver1 Hg1 Hg2 Hdue2 Hcheck2.
    unfold syncSetting. rewrite (body_check_due _ _ _ v).
    - cbn. rewrite Hver1, Hcheck2. rewrite decide_True by done.
      eexists; split; [reflexivity|]. cbn.
      unfold networkCalls, storeWrites.
      rewrite <- !app_assoc, !omap_app; cbn. by rewrite ?app_nil_r.
    - done.
    - split_and!; eauto.
    - lia. }
  assert (Hlen : ∀ sc1 sc'' : SettingController,
    networkCalls (trace sc'') =
      networkCalls (trace sc1) ++ [ {| LonghornVersion := version sc |} ] ->
    networkCalls (trace sc1) =
      networkCalls (trace sc) ++ [ {| LonghornVersion := version sc |} ] ->
    length (networkCalls (trace sc'')) =
      (length (networkCalls (trace sc)) + 2)%nat).
  { intros sc1 sc'' -> ->. rewrite !length_app. cbn. lia. }
  destruct (decide (v = cached)) as [->|Hne].
  - do 2 eexists; split; [reflexivity|].
    split; [done|]. split; [by traces|].
    intros Hdistinct Hw env2 Hg1 Hg2 Hdue2 Hcheck2.
    lazymatch goal with
    | |- context [syncSetting _ _ key env2 ?s] =>
        destruct (Hsecond s env2) as (sc'' & Hrun & Hlast & Hwr & Hnet);
          try done
    end.
    exists sc''. split_and!; try done.
    + eapply Hlen; [done|]. by traces.
    + rewrite Hwr. traces. rewrite Nat.add_0_r. done.
  - destruct (storeFault env (OpUpdate _)) as [e|] eqn:Hfault;
      do 2 eexists; (split; [reflexivity|]);
      (split; [done|]); (split; [by traces|]); [done|].
    intros Hdistinct _ env2 Hg1 Hg2 Hdue2 Hcheck2.
    lazymatch goal with
    | |- context [syncSetting _ _ key env2 ?s] =>
        destruct (Hsecond s env2) as (sc'' & Hrun & Hlast & Hwr & Hnet);
          try done
    end.
    + cbn. by rewrite lookup_insert_ne.
    + cbn. by rewrite lookup_insert_eq.
    + exists sc''. split_and!; try done.
      * eapply Hlen; [done|]. by traces.
      * rewrite Hwr. traces. rewrite !length_app. done.
Qed.

(** C4: Version selection.  For a well-formed response, the checker
    returns the Name of the first descriptor, in response order, whose
    Tags contain "latest".  The response of the specification selects
    "1.1.0"; of two descriptors tagged latest the first one wins, whatever
    their versions. *)
Theorem first_latest_is_selected env sc resp d :
  post env {| LonghornVersion := version sc |} = Decoded resp ->
  wellFormed resp ->
  firstLatest resp = Some d ->
  CheckLatestLonghornVersion env sc =
    (Ok (Name d),
     emit (EvHttpPost checkUpgradeURL {| LonghornVersion := version sc |})
          sc) ∧
  selectLatest Sample.response = Ok "1.1.0"%string ∧
  selectLatest Sample.twoLatest = Ok "1.0.0"%string.
Proof.
  intros Hpost Hwf Hfirst. split; [|by split].
  rewrite CheckLatestLonghornVersion_run. f_equal.
  unfold checkResult. rewrite Hpost, selectLatest_firstLatest, Hfirst.
  apply decide_False.
  unfold firstLatest in Hfirst. apply find_some in Hfirst as [Hin _].
  unfold wellFormed in Hwf. rewrite List.Forall_forall in Hwf. by apply Hwf.
Qed.

(** C5: No latest tag.  For a response in which no descriptor is tagged
    "latest", the checker fails with the "cannot find latest version"
    error.  The handler, enabled and past the window, returns that error
    to its caller (under the key's message) without arming the debounce,
    and the worker schedules the key again while its retry budget
    lasts. *)
Theorem no_latest_tag_is_an_error key env sc cached resp :
  keyNames key SettingNameUpgradeChecker ->
  ready env sc true cached ->
  lastUpgradeCheckedTimestamp sc + upgradeCheckInterval <= now env ->
  post env {| LonghornVersion := version sc |} = Decoded resp ->
  Forall (fun v => VersionTagLatest ∉ Tags v) (Versions resp) ->
  selectLatest resp = Err (ErrNoLatestVersion resp) ∧
  CheckLatestLonghornVersion env sc =
    (Err (ErrNoLatestVersion resp),
     emit (EvHttpPost checkUpgradeURL {| LonghornVersion := version sc |})
          sc) ∧
  ∃ sc',
    sync key env sc =
      (Some (ErrWrap (ErrNoLatestVersion resp)
                     ("fail to sync setting for " ++ key)), sc') ∧
    lastUpgradeCheckedTimestamp sc' = lastUpgradeCheckedTimestamp sc ∧
    ((NumRequeues key (queue sc) < maxRetries)%nat ->
     queueCalls
       (trace (handleErr maxRetries
                 (Some (ErrWrap (ErrNoLatestVersion resp)
                                ("fail to sync setting for " ++ key)))
                 key sc')) =
     queueCalls (trace sc') ++ [CallAddRateLimited key]).
Proof.
  intros Hkey Hready Hdue Hpost Hnone.
  assert (Hsel : selectLatest resp = Err (ErrNoLatestVersion resp)).
  { rewrite selectLatest_firstLatest.
    by apply firstLatest_None in Hnone as ->. }
  assert (Hcheck : checkResult env (version sc)
                   = Err (ErrNoLatestVersion resp)).
  { unfold checkResult. by rewrite Hpost. }
  split; [done|]. split.
  { by rewrite CheckLatestLonghornVersion_run, Hcheck. }
  destruct (check_failure_passed_on key env sc cached
              (ErrNoLatestVersion resp)) as (sc' & Hrun & Hlast & Hq & _);
    try done.
  exists sc'. split_and!; try done.
  intros Hbudget. unfold handleErr. rewrite Hq.
  apply Nat.ltb_lt in Hbudget as ->. by traces.
Qed.

(** C10: A nameless latest.  If the first descriptor tagged "latest" has
    the empty Name, the checker returns the "cannot find latest version"
    error, whatever follows it in the response: the scan has stopped
    there.  The checker returns that error exactly when no descriptor is
    tagged latest or the first one tagged latest is nameless, so the two
    cases cannot be told apart. *)
Theorem nameless_latest_is_an_error env sc resp d :
  post env {| LonghornVersion := version sc |} = Decoded resp ->
  firstLatest resp = Some d ->
  Name d = EmptyString ->
  CheckLatestLonghornVersion env sc =
    (Err (ErrNoLatestVersion resp),
     emit (EvHttpPost checkUpgradeURL {| LonghornVersion := version sc |})
          sc) ∧
  ∀ resp',
    selectLatest resp' = Err (ErrNoLatestVersion resp') <->
    firstLatest resp' = None ∨
    ∃ d', firstLatest resp' = Some d' ∧ Name d' = EmptyString.
Proof.
  intros Hpost Hfirst Hname. split.
  - rewrite CheckLatestLonghornVersion_run. f_equal.
    unfold checkResult.
    rewrite Hpost, selectLatest_firstLatest, Hfirst.
    by apply decide_True.
  - intros resp'. rewrite selectLatest_firstLatest.
    destruct (firstLatest resp') as [d'|]; [|by split; [left|]].
    destruct (decide (Name d' = EmptyString)) as [Hd|Hd].
    + split; [by right; exists d'|done].
    + split; [done|]. by intros [|(? & [= <-] & ?)].
Qed.

(** C9 (amended): Keys that cannot be read.  A key that
    [SplitMetaNamespaceKey] rejects makes the handler fail at once, with
    nothing read, written or sent; the worker treats that error as any
    other: the key is scheduled again while NumRequeues(key) < maxRetries
    and only then reported and dropped.  What is reported immediately and
    never enqueued is an object for which no key can be made at all. *)
Theorem malformed_key_is_retried_like_any_error key err env sc :
  SplitMetaNamespaceKey key = Err err ->
  sync key env sc =
    (Some (ErrWrap err ("fail to sync setting for " ++ key)), sc) ∧
  (let failure := ErrWrap err ("fail to sync setting for " ++ key) in
   let sc' := handleErr maxRetries (Some failure) key sc in
   if (NumRequeues key (queue sc) <? maxRetries)%nat then
     queueCalls (trace sc') = queueCalls (trace sc) ++ [CallAddRateLimited key] ∧
     reported (trace sc') = reported (trace sc) ∧
     delayed (queue sc') = delayed (queue sc) ++ [(key, NumRequeues key (queue sc))]
   else
     queueCalls (trace sc') = queueCalls (trace sc) ++ [CallForget key] ∧
     reported (trace sc') = reported (trace sc) ++ [failure] ∧
     delayed (queue sc') = delayed (queue sc)) ∧
  (∀ setting cause,
     KeyFunc setting = Err cause ->
     enqueueSetting KeyFunc setting sc =
       emit (EvHandleError (ErrCouldntGetKey setting cause)) sc ∧
     queue (enqueueSetting KeyFunc setting sc) = queue sc ∧
     queueCalls (trace (enqueueSetting KeyFunc setting sc)) =
       queueCalls (trace sc) ∧
     reported (trace (enqueueSetting KeyFunc setting sc)) =
       reported (trace sc) ++ [ErrCouldntGetKey setting cause]).
Proof.
  intros Hkey. split_and!.
  - run. by rewrite Hkey.
  - cbv zeta. unfold handleErr.
    destruct (NumRequeues key (queue sc) <? maxRetries)%nat;
      split_and!; by traces.
  - intros setting cause Hcause. unfold enqueueSetting. rewrite Hcause.
    split_and!; by traces.
Qed.

End Handler.

(** * The theorems at work on the sample data *)

(** The debounce scenario of the specification: the last check one second
    less than a day ago. *)
Lemma debounce_window_is_noop_witness :
  ∃ sc',
    Sample.sync Sample.key
         (Sample.env (101 * Sample.day - time.Second)
                     (Decoded Sample.response) Sample.noFault)
         (Sample.controller "true" "1.0.0" (100 * Sample.day)
                            Sample.emptyQueue) = (None, sc') ∧
    networkCalls (trace sc') = [] ∧
    storeWrites (trace sc') = [] ∧
    lastUpgradeCheckedTimestamp sc' = 100 * Sample.day ∧
    ds sc' !! Sample.latestVersion = Some "1.0.0"%string.
Proof.
  destruct (debounce_window_is_noop Sample.upgradeChecker Sample.latestVersion Sample.key
              (Sample.env (101 * Sample.day - time.Second)
                          (Decoded Sample.response) Sample.noFault)
              (Sample.controller "true" "1.0.0" (100 * Sample.day)
                                 Sample.emptyQueue) "1.0.0")
    as (_ & sc' & Hrun & _ & Hnet & Hwr & Hlast & _ & Hcached).
  - sample_key.
  - sample_ready "true"%string.
  - compute_it.
  - exists sc'. split_and!; [exact Hrun | exact Hnet | exact Hwr
                            | exact Hlast | exact Hcached].
Defined.

Lemma other_settings_are_ignored_witness :
  Sample.sync Sample.otherKey
       (Sample.env 0 (Decoded Sample.response) Sample.noFault)
       (Sample.controller "true" "" 0 Sample.emptyQueue)
  = (None, Sample.controller "true" "" 0 Sample.emptyQueue).
Proof.
  refine (proj1 (other_settings_are_ignored Sample.maxRetries Sample.upgradeChecker Sample.latestVersion
                   Sample.otherKey "backup-target"
                   (Sample.env 0 (Decoded Sample.response) Sample.noFault)
                   _ _) _).
  - sample_key.
  - compute_it.
Defined.

(** A turn on the upgrade-checker key while the responder cannot be
    reached: the key is scheduled again and done. *)
Lemma worker_turn_witness :
  ∃ sc',
    Sample.turn (Sample.env (100 * Sample.day) (PostFailed (ErrTransport "timeout"))
                     Sample.noFault)
         (Sample.controller "true" "" 0 (Sample.queueOf [Sample.key]))
    = Some (true, sc') ∧
    queueCalls (trace sc') =
      [CallGet; CallAddRateLimited Sample.key; CallDone Sample.key] ∧
    reported (trace sc') = [].
Proof.
  edestruct (worker_turn Sample.maxRetries Sample.upgradeChecker Sample.latestVersion
               (Sample.env (100 * Sample.day)
                           (PostFailed (ErrTransport "timeout"))
                           Sample.noFault)
               (Sample.controller "true" "" 0 (Sample.queueOf [Sample.key]))
               Sample.key)
    as (sc' & Hrun & _ & Hcalls & Hrep).
  - vm_compute. reflexivity.
  - vm_compute. reflexivity.
  - exists sc'. split_and!; [exact Hrun | exact Hcalls | exact Hrep].
Defined.

Lemma disabled_clears_then_resets_witness :
  ∃ sc',
    Sample.sync Sample.key
         (Sample.env (100 * Sample.day) (Decoded Sample.response)
                     Sample.noFault)
         (Sample.controller "false" "1.0.0" (99 * Sample.day)
                            Sample.emptyQueue) = (None, sc') ∧
    lastUpgradeCheckedTimestamp sc' = zeroTime ∧
    ds sc' !! Sample.latestVersion = Some ""%string ∧
    storeWrites (trace sc') = [ {| SName := Sample.latestVersion; Value := "" |} ].
Proof.
  destruct (disabled_clears_then_resets Sample.upgradeChecker Sample.latestVersion Sample.key
              (Sample.env (100 * Sample.day) (Decoded Sample.response)
                          Sample.noFault)
              (Sample.controller "false" "1.0.0" (99 * Sample.day)
                                 Sample.emptyQueue) "1.0.0")
    as (err & sc' & Hrun & _ & Hwr & Herr & Hlast & Hds).
  - sample_key.
  - sample_ready "false"%string.
  - exists sc'. unfold Sample.sync. rewrite Hrun, Herr, Hds. split_and!;
      [reflexivity | exact Hlast | compute_it | exact Hwr].
Defined.

Lemma failed_check_is_returned_wrapped_witness :
  ∃ sc',
    Sample.sync Sample.key
         (Sample.env (100 * Sample.day) (PostFailed (ErrTransport "timeout"))
                     Sample.noFault)
         (Sample.controller "true" "1.0.0" 0 Sample.emptyQueue)
    = (Some (ErrWrap (ErrTransport "timeout")
               "fail to sync setting for longhorn-system/upgrade-checker"),
       sc') ∧
    lastUpgradeCheckedTimestamp sc' = 0 ∧
    storeWrites (trace sc') = [].
Proof.
  destruct (failed_check_is_returned_wrapped Sample.upgradeChecker Sample.latestVersion Sample.key
              (Sample.env (100 * Sample.day)
                          (PostFailed (ErrTransport "timeout"))
                          Sample.noFault)
              (Sample.controller "true" "1.0.0" 0 Sample.emptyQueue)
              "1.0.0" (ErrTransport "timeout"))
    as (sc' & Hrun & _ & Hlast & Hwr & _).
  - sample_key.
  - sample_ready "true"%string.
  - compute_it.
  - compute_it.
  - exists sc'. split_and!; [exact Hrun | exact Hlast | exact Hwr].
Defined.

(** The first check on an empty cache writes; a second one a day later,
    answered alike, does not. *)
Lemma successful_check_writes_on_change_witness :
  ∃ sc' sc'',
    Sample.sync Sample.key
         (Sample.env (100 * Sample.day) (Decoded Sample.response)
                     Sample.noFault)
         (Sample.controller "true" "" 0 Sample.emptyQueue) = (None, sc') ∧
    lastUpgradeCheckedTimestamp sc' = 100 * Sample.day ∧
    storeWrites (trace sc') = [ {| SName := Sample.latestVersion; Value := "1.1.0" |} ] ∧
    Sample.sync Sample.key
         (Sample.env (101 * Sample.day) (Decoded Sample.response)
                     Sample.noFault) sc' = (None, sc'') ∧
    length (networkCalls (trace sc'')) = 2%nat ∧
    length (storeWrites (trace sc'')) = 1%nat.
Proof.
  destruct (successful_check_writes_on_change Sample.upgradeChecker Sample.latestVersion Sample.key
              (Sample.env (100 * Sample.day) (Decoded Sample.response)
                          Sample.noFault)
              (Sample.controller "true" "" 0 Sample.emptyQueue)
              "" "1.1.0")
    as (err & sc' & Hrun & Hlast & Hwr & Htwice).
  - sample_key.
  - sample_ready "true"%string.
  - compute_it.
  - compute_it.
  - destruct (Htwice ltac:(compute_it) ltac:(compute_it)
                (Sample.env (101 * Sample.day) (Decoded Sample.response)
                            Sample.noFault))
      as (sc'' & Herr & Hrun2 & _ & _ & Hnet & Hlen);
      [compute_it | compute_it | compute_it | compute_it |].
    exists sc', sc''. unfold Sample.sync. rewrite Hrun, Herr.
    split_and!; [reflexivity | exact Hlast | exact Hwr | exact Hrun2
                | exact Hnet | exact Hlen].
Defined.

Lemma first_latest_is_selected_witness :
  CheckLatestLonghornVersion
    (Sample.env 0 (Decoded Sample.response) Sample.noFault)
    (Sample.controller "true" "" 0 Sample.emptyQueue)
  = (Ok "1.1.0"%string,
     emit (EvHttpPost checkUpgradeURL {| LonghornVersion := "v0.3.0" |})
          (Sample.controller "true" "" 0 Sample.emptyQueue)).
Proof.
  refine (proj1 (first_latest_is_selected
                   (Sample.env 0 (Decoded Sample.response) Sample.noFault)
                   (Sample.controller "true" "" 0 Sample.emptyQueue)
                   Sample.response
                   {| Name := "1.1.0"; ReleaseDate := "";
                      Tags := ["latest"%string] |} _ _ _)).
  - reflexivity.
  - repeat constructor; discriminate.
  - compute_it.
Defined.

Lemma no_latest_tag_is_an_error_witness :
  ∃ sc',
    Sample.sync Sample.key
         (Sample.env (100 * Sample.day) (Decoded Sample.noLatest)
                     Sample.noFault)
         (Sample.controller "true" "" 0 (Sample.queueOf [Sample.key]))
    = (Some (ErrWrap (ErrNoLatestVersion Sample.noLatest)
               "fail to sync setting for longhorn-system/upgrade-checker"),
       sc') ∧
    lastUpgradeCheckedTimestamp sc' = 0.
Proof.
  destruct (no_latest_tag_is_an_error Sample.maxRetries Sample.upgradeChecker Sample.latestVersion Sample.key
              (Sample.env (100 * Sample.day) (Decoded Sample.noLatest)
                          Sample.noFault)
              (Sample.controller "true" "" 0 (Sample.queueOf [Sample.key]))
              "" Sample.noLatest)
    as (_ & _ & sc' & Hrun & Hlast & _).
  - sample_key.
  - sample_ready "true"%string.
  - compute_it.
  - reflexivity.
  - apply Forall_cons; split; [|by apply Forall_nil].
    cbn. rewrite list_elem_of_singleton. unfold VersionTagLatest. discriminate.
  - exists sc'. split; [exact Hrun | exact Hlast].
Defined.

(** The nameless descriptor hides the named one that follows it. *)
Lemma nameless_latest_is_an_error_witness :
  (∃ d', d' ∈ Versions Sample.namelessFirst ∧
         VersionTagLatest ∈ Tags d' ∧ Name d' = "1.1.0"%string) ∧
  CheckLatestLonghornVersion
    (Sample.env 0 (Decoded Sample.namelessFirst) Sample.noFault)
    (Sample.controller "true" "" 0 Sample.emptyQueue)
  = (Err (ErrNoLatestVersion Sample.namelessFirst),
     emit (EvHttpPost checkUpgradeURL {| LonghornVersion := "v0.3.0" |})
          (Sample.controller "true" "" 0 Sample.emptyQueue)).
Proof.
  split.
  - eexists. split; [right; left|]. split; [right; left | reflexivity].
  - refine (proj1 (nameless_latest_is_an_error
                     (Sample.env 0 (Decoded Sample.namelessFirst)
                                 Sample.noFault)
                     (Sample.controller "true" "" 0 Sample.emptyQueue)
                     Sample.namelessFirst
                     {| Name := ""; ReleaseDate := "";
                        Tags := ["latest"%string] |} _ _ _)).
    + reflexivity.
    + compute_it.
    + reflexivity.
Defined.

Lemma malformed_key_is_retried_like_any_error_witness :
  Sample.sync Sample.badKey
       (Sample.env 0 (Decoded Sample.response) Sample.noFault)
       (Sample.controller "true" "" 0 Sample.emptyQueue)
  = (Some (ErrWrap (ErrKeyFormat Sample.badKey)
             "fail to sync setting for a/b/c"),
     Sample.controller "true" "" 0 Sample.emptyQueue).
Proof.
  refine (proj1 (malformed_key_is_retried_like_any_error
                   Sample.maxRetries Sample.upgradeChecker Sample.latestVersion Sample.KeyFunc Sample.badKey
                   (ErrKeyFormat Sample.badKey)
                   (Sample.env 0 (Decoded Sample.response) Sample.noFault)
                   (Sample.controller "true" "" 0 Sample.emptyQueue) _)).
  compute_it.
Defined.

(** * Where the code departs from the specification's sentences *)

(** C1: Two consecutive successful checks that return the same version,
    with no store write at all: the cache already held that version (as it
    does when the process starts again with a filled store). *)
Lemma same_version_checked_twice_counterexample :
  ∃ sc1 sc2,
    Sample.sync Sample.key
         (Sample.env (100 * Sample.day) (Decoded Sample.response)
                     Sample.noFault)
         (Sample.controller "true" "1.1.0" 0 Sample.emptyQueue)
    = (None, sc1) ∧
    Sample.sync Sample.key
         (Sample.env (101 * Sample.day) (Decoded Sample.response)
                     Sample.noFault) sc1
    = (None, sc2) ∧
    networkCalls (trace sc2) =
      [ {| LonghornVersion := "v0.3.0" |}; {| LonghornVersion := "v0.3.0" |} ] ∧
    lastUpgradeCheckedTimestamp sc2 = 101 * Sample.day ∧
    length (storeWrites (trace sc2)) ≠ 1%nat.
Proof.
  do 2 eexists. split_and!; [vm_compute; reflexivity ..|].
  vm_compute. discriminate.
Qed.

(** C3: The flag is off and the cached version is not empty, but the store
    refuses the write: the handler fails and LastCheckedAt is not reset. *)
Lemma disabled_with_failing_write_counterexample :
  keyNames Sample.key Sample.upgradeChecker ∧
  loaded Sample.upgradeChecker Sample.latestVersion
         (Sample.env (100 * Sample.day) (Decoded Sample.response)
                     Sample.failWrites)
         (Sample.controller "false" "1.0.0" (99 * Sample.day)
                            Sample.emptyQueue)
         false "1.0.0" ∧
  ∃ sc',
    Sample.sync Sample.key
         (Sample.env (100 * Sample.day) (Decoded Sample.response)
                     Sample.failWrites)
         (Sample.controller "false" "1.0.0" (99 * Sample.day)
                            Sample.emptyQueue)
    = (Some (ErrWrap (ErrStore "conflict")
               "fail to sync setting for longhorn-system/upgrade-checker"),
       sc') ∧
    lastUpgradeCheckedTimestamp sc' = 99 * Sample.day ∧
    lastUpgradeCheckedTimestamp sc' ≠ zeroTime ∧
    ds sc' !! Sample.latestVersion = Some "1.0.0"%string.
Proof.
  split; [sample_key|]. split; [sample_ready "false"%string|].
  eexists. split_and!; [vm_compute; reflexivity ..| |vm_compute; reflexivity].
  vm_compute. discriminate.
Qed.

(** C6: The check fails with a transport error; what the handler returns
    is not that error but a new one around it. *)
Lemma failed_check_error_is_changed_counterexample :
  checkResult (Sample.env (100 * Sample.day)
                          (PostFailed (ErrTransport "timeout"))
                          Sample.noFault)
              "v0.3.0"
  = Err (ErrTransport "timeout") ∧
  (Sample.sync Sample.key
        (Sample.env (100 * Sample.day) (PostFailed (ErrTransport "timeout"))
                    Sample.noFault)
        (Sample.controller "true" "1.0.0" 0 Sample.emptyQueue)).1
  = Some (ErrWrap (ErrTransport "timeout")
            "fail to sync setting for longhorn-system/upgrade-checker") ∧
  (Sample.sync Sample.key
        (Sample.env (100 * Sample.day) (PostFailed (ErrTransport "timeout"))
                    Sample.noFault)
        (Sample.controller "true" "1.0.0" 0 Sample.emptyQueue)).1
  ≠ Some (ErrTransport "timeout").
Proof.
  split_and!; [vm_compute; reflexivity ..|].
  vm_compute. discriminate.
Qed.

(** C9: A key in three parts names no setting; the worker's turn on it
    schedules it again and reports nothing. *)
Lemma malformed_key_is_scheduled_again_counterexample :
  SplitMetaNamespaceKey Sample.badKey = Err (ErrKeyFormat Sample.badKey) ∧
  ∃ sc',
    Sample.turn (Sample.env 0 (Decoded Sample.response) Sample.noFault)
         (Sample.controller "true" "" 0 (Sample.queueOf [Sample.badKey]))
    = Some (true, sc') ∧
    queueCalls (trace sc') =
      [CallGet; CallAddRateLimited Sample.badKey; CallDone Sample.badKey] ∧
    reported (trace sc') = [] ∧
    delayed (queue sc') = [(Sample.badKey, 0%nat)] ∧
    NumRequeues Sample.badKey (queue sc') = 1%nat.
Proof.
  split; [reflexivity|].
  eexists. split_and!; vm_compute; reflexivity.
Qed.

(** * Further properties of the handler, the checker and the worker *)

Section Coverage.

Context (maxRetries : nat).
Context (SettingNameUpgradeChecker SettingNameLatestLonghornVersion : string).
Context (KeyFunc : Setting -> result string).

Local Abbreviation sync :=
  (syncSetting SettingNameUpgradeChecker SettingNameLatestLonghornVersion).
Local Abbreviation ready :=
  (loaded SettingNameUpgradeChecker SettingNameLatestLonghornVersion).
Local Abbreviation turn :=
  (processNextWorkItem maxRetries SettingNameUpgradeChecker
                       SettingNameLatestLonghornVersion).
Local Abbreviation cachedSetting v :=
  {| SName := SettingNameLatestLonghornVersion; Value := v |}.

(** X1: Whatever the key, the store and the responder do, one invocation
    of the handler makes at most two store reads, at most one network call
    and at most one store write; it calls nothing on the queue, reports
    nothing, and leaves the queue and the running version as they were. *)
Theorem handler_effects_are_bounded key env sc :
  ∃ evs,
    trace (sync key env sc).2 = trace sc ++ evs ∧
    (length (storeReads evs) <= 2)%nat ∧
    (length (networkCalls evs) <= 1)%nat ∧
    (length (storeWrites evs) <= 1)%nat ∧
    queueCalls evs = [] ∧
    reported evs = [] ∧
    queue (sync key env sc).2 = queue sc ∧
    version (sync key env sc).2 = version sc.
Proof.
  run.
  repeat (case_match; simplify_eq/=);
    rewrite <- ?app_assoc;
    first [ eexists; split; [reflexivity|]; cbn; split_and!; (done || lia)
          | exists []; rewrite app_nil_r; cbn; split_and!; (done || lia) ].
Qed.

(** X2: The only setting the handler ever writes is the cached latest
    version: every store write of an invocation carries that name, and the
    value stored under any other name (the upgrade-checker flag among them)
    is what it was. *)
Theorem handler_writes_only_the_cached_version key env sc :
  ∃ evs,
    trace (sync key env sc).2 = trace sc ++ evs ∧
    Forall (fun s => SName s = SettingNameLatestLonghornVersion)
           (storeWrites evs) ∧
    ∀ name, name ≠ SettingNameLatestLonghornVersion ->
            ds (sync key env sc).2 !! name = ds sc !! name.
Proof.
  run.
  repeat (case_match; simplify_eq/=);
    rewrite <- ?app_assoc;
    first [ eexists; split; [reflexivity|]
          | exists []; split; [by rewrite app_nil_r|] ];
    cbn; (split; [repeat constructor|]);
    intros name Hname; by rewrite ?lookup_insert_ne.
Qed.

(** X3: After an invocation LastCheckedAt is what it was, or the zero time,
    or the reading of the clock; and it is set to the clock only when the
    clock is at least one interval past the previous value.  So it never
    moves backwards except by the reset to zero. *)
Theorem last_checked_moves_forward_or_resets key env sc :
  let last' := lastUpgradeCheckedTimestamp (sync key env sc).2 in
  last' = lastUpgradeCheckedTimestamp sc ∨
  last' = zeroTime ∨
  (last' = now env ∧
   lastUpgradeCheckedTimestamp sc + upgradeCheckInterval <= now env).
Proof.
  run. unfold time.Before, time.Add.
  repeat (case_match; simplify_eq/=); auto;
    right; right; (split; [done|]);
    match goal with H : (_ <? _) = false |- _ => apply Z.ltb_ge in H end;
    done.
Qed.


(** X4: A failed load is passed on.  If reading the upgrade-checker flag
    fails (the store fails, the setting is missing, or its value is not a
    boolean), or if that read succeeds and reading the cached version fails,
    the handler returns that error wrapped with the key; it has made no
    network call and no store write, and LastCheckedAt and the store are
    what they were. *)
Theorem failed_load_is_passed_on key env sc e :
  keyNames key SettingNameUpgradeChecker ->
  (∃ sc1, GetSettingAsBool SettingNameUpgradeChecker env sc = (Err e, sc1)) ∨
  (∃ enabled sc1 sc2,
     GetSettingAsBool SettingNameUpgradeChecker env sc = (Ok enabled, sc1) ∧
     GetSetting SettingNameLatestLonghornVersion env sc1 = (Err e, sc2)) ->
  ∃ sc',
    sync key env sc =
      (Some (ErrWrap e ("fail to sync setting for " ++ key)), sc') ∧
    networkCalls (trace sc') = networkCalls (trace sc) ∧
    storeWrites (trace sc') = storeWrites (trace sc) ∧
    lastUpgradeCheckedTimestamp sc' = lastUpgradeCheckedTimestamp sc ∧
    ds sc' = ds sc.
Proof.
  intros [ns Hkey] Hload.
  unfold syncSetting, syncSettingBody.
  unfold mbind at 1, M_bind at 1, lift at 1. rewrite Hkey. cbn.
  destruct (decide (SettingNameUpgradeChecker ≠ SettingNameUpgradeChecker));
    [done|].
  unfold mbind at 1, M_bind at 1.
  assert (Hframe : ∀ name st r st',
    GetSetting name env st = (r, st') ->
    networkCalls (trace st') = networkCalls (trace st) ∧
    storeWrites (trace st') = storeWrites (trace st) ∧
    lastUpgradeCheckedTimestamp st' = lastUpgradeCheckedTimestamp st ∧
    ds st' = ds st).
  { intros name st r st'. run.
    repeat (case_match; simplify_eq/=); intros [= <- <-]; by traces. }
  assert (Hframe' : ∀ name st r st',
    GetSettingAsBool name env st = (r, st') ->
    networkCalls (trace st') = networkCalls (trace st) ∧
    storeWrites (trace st') = storeWrites (trace st) ∧
    lastUpgradeCheckedTimestamp st' = lastUpgradeCheckedTimestamp st ∧
    ds st' = ds st).
  { intros name st r st'. unfold GetSettingAsBool, mbind, M_bind, lift.
    destruct (GetSetting name env st) as [[s|e'] st1] eqn:Hget;
      intros [= <- <-]; by apply (Hframe name st _ _ Hget). }
  destruct Hload as [(sc1 & H1)|(enabled & sc1 & sc2 & H1 & H2)].
  - rewrite H1. cbn. exists sc1. split; [done|]. by eapply Hframe'.
  - rewrite H1. unfold mbind at 1, M_bind at 1. rewrite H2. cbn.
    exists sc2. split; [done|].
    destruct (Hframe' _ _ _ _ H1) as (E1 & E2 & E3 & E4).
    destruct (Hframe _ _ _ _ H2) as (F1 & F2 & F3 & F4).
    split_and!; congruence.
Qed.

(** X5: The debounce is armed before the write.  When a due check returns
    a new version and the store refuses the write, the handler fails, yet
    LastCheckedAt is already the current time and the store still holds the
    old value.  An invocation any time before the interval has passed again
    (the retry the worker schedules is one) then returns success without a
    network call or a store write: the new version is not cached until the
    window reopens. *)
Theorem failed_write_still_arms_the_debounce key env sc cached v e :
  keyNames key SettingNameUpgradeChecker ->
  ready env sc true cached ->
  lastUpgradeCheckedTimestamp sc + upgradeCheckInterval <= now env ->
  checkResult env (version sc) = Ok v ->
  v ≠ cached ->
  storeFault env (OpUpdate (cachedSetting v)) = Some e ->
  ∃ sc',
    sync key env sc =
      (Some (ErrWrap e ("fail to sync setting for " ++ key)), sc') ∧
    lastUpgradeCheckedTimestamp sc' = now env ∧
    ds sc' = ds sc ∧
    ∀ env2,
      storeFault env2 (OpGet SettingNameUpgradeChecker) = None ->
      storeFault env2 (OpGet SettingNameLatestLonghornVersion) = None ->
      now env2 < now env + upgradeCheckInterval ->
      ∃ sc'',
        sync key env2 sc' = (None, sc'') ∧
        networkCalls (trace sc'') = networkCalls (trace sc') ∧
        storeWrites (trace sc'') = storeWrites (trace sc') ∧
        ds sc'' !! SettingNameLatestLonghornVersion = Some cached.
Proof.
  intros Hkey Hready Hdue Hcheck Hne Hfault.
  pose proof Hready as (Hf1 & (flag & Hflag & Hparse) & Hf2 & Hcached).
  unfold syncSetting at 1. rewrite (body_check_due _ _ _ _ _ cached) by done.
  cbn. rewrite Hcheck, decide_False, Hfault by done.
  eexists; split; [reflexivity|]. split; [done|]. split; [done|].
  intros env2 Hg1 Hg2 Hnow2.
  unfold syncSetting.
  rewrite (body_within_window _ _ _ _ _ cached); [|done| |cbn; lia].
  - eexists; split; [reflexivity|]. by traces.
  - split_and!; eauto.
Qed.

(** X6: Disabling arms an immediate check.  After an invocation with the
    flag off has succeeded, LastCheckedAt is the zero time, so once the
    flag is on again (whatever else was written to the store meanwhile) the
    next invocation makes the network call, however little time has
    passed since the last check. *)
Theorem disabling_arms_an_immediate_check key env sc cached :
  keyNames key SettingNameUpgradeChecker ->
  ready env sc false cached ->
  (cached ≠ EmptyString ->
   storeFault env (OpUpdate (cachedSetting EmptyString)) = None) ->
  ∃ sc',
    sync key env sc = (None, sc') ∧
    ∀ store env2 cached2,
      ready env2 (setStore store sc') true cached2 ->
      upgradeCheckInterval <= now env2 ->
      networkCalls (trace (sync key env2 (setStore store sc')).2) =
        networkCalls (trace sc') ++ [ {| LonghornVersion := version sc |} ].
Proof.
  intros Hkey Hready Hwrite.
  assert (Hnext : ∀ sc' store env2 cached2,
    lastUpgradeCheckedTimestamp sc' = zeroTime ->
    version sc' = version sc ->
    ready env2 (setStore store sc') true cached2 ->
    upgradeCheckInterval <= now env2 ->
    networkCalls (trace (sync key env2 (setStore store sc')).2) =
      networkCalls (trace sc') ++ [ {| LonghornVersion := version sc |} ]).
  { intros sc' store env2 cached2 Hlast Hver Hready2 Hdue2.
    unfold syncSetting.
    rewrite (body_check_due _ _ _ _ _ cached2); [|done|done|].
    - cbn. rewrite Hver.
      destruct (checkResult env2 (version sc)) as [v|e]; cbn;
        [destruct (decide (v = cached2)); cbn;
         [|destruct (storeFault env2 (OpUpdate _)); cbn]|]; by traces.
    - cbn. rewrite Hlast. unfold zeroTime. lia. }
  unfold syncSetting at 1. rewrite (body_disabled _ _ _ _ _ cached) by done.
  destruct (decide (cached = EmptyString)) as [->|Hne]; cbn.
  - eexists; split; [reflexivity|]. intros store env2 cached2 Hr Hd.
    by rewrite (Hnext _ store env2 cached2).
  - rewrite Hwrite by done.
    eexists; split; [reflexivity|]. intros store env2 cached2 Hr Hd.
    by rewrite (Hnext _ store env2 cached2).
Qed.

(** X7: Disabling twice writes once.  After an invocation with the flag
    off has succeeded, the cached version is empty; a further invocation
    with the flag still off attempts no store write (so it succeeds even
    if the store would refuse one) and leaves the store as it is. *)
Theorem disabling_again_writes_nothing key env sc cached :
  SettingNameUpgradeChecker ≠ SettingNameLatestLonghornVersion ->
  keyNames key SettingNameUpgradeChecker ->
  ready env sc false cached ->
  (cached ≠ EmptyString ->
   storeFault env (OpUpdate (cachedSetting EmptyString)) = None) ->
  ∃ sc',
    sync key env sc = (None, sc') ∧
    ds sc' !! SettingNameLatestLonghornVersion = Some EmptyString ∧
    ∀ env2,
      storeFault env2 (OpGet SettingNameUpgradeChecker) = None ->
      storeFault env2 (OpGet SettingNameLatestLonghornVersion) = None ->
      ∃ sc'',
        sync key env2 sc' = (None, sc'') ∧
        storeWrites (trace sc'') = storeWrites (trace sc') ∧
        ds sc'' = ds sc' ∧
        lastUpgradeCheckedTimestamp sc'' = zeroTime.
Proof.
  intros Hdistinct Hkey Hready Hwrite.
  pose proof Hready as (Hf1 & (flag & Hflag & Hparse) & Hf2 & Hcached).
  assert (Hnext : ∀ sc' env2,
    ds sc' !! SettingNameUpgradeChecker = Some flag ->
    ds sc' !! SettingNameLatestLonghornVersion = Some EmptyString ->
    storeFault env2 (OpGet SettingNameUpgradeChecker) = None ->
    storeFault env2 (OpGet SettingNameLatestLonghornVersion) = None ->
    ∃ sc'',
      sync key env2 sc' = (None, sc'') ∧
      storeWrites (trace sc'') = storeWrites (trace sc') ∧
      ds sc'' = ds sc' ∧
      lastUpgradeCheckedTimestamp sc'' = zeroTime).
  { intros sc' env2 Hflag' Hc' Hg1 Hg2.
    unfold syncSetting.
    rewrite (body_disabled _ _ _ _ _ EmptyString); [|done|by split_and!; eauto].
    cbn. eexists; split; [reflexivity|]. by traces. }
  unfold syncSetting at 1. rewrite (body_disabled _ _ _ _ _ cached) by done.
  destruct (decide (cached = EmptyString)) as [->|Hne]; cbn.
  - eexists; split; [reflexivity|]. split; [done|].
    intros env2 Hg1 Hg2. by apply Hnext.
  - rewrite Hwrite by done.
    eexists; split; [reflexivity|]. cbn.
    split; [by rewrite lookup_insert_eq|].
    intros env2 Hg1 Hg2. apply Hnext; cbn; try done.
    + by rewrite lookup_insert_ne.
    + by rewrite lookup_insert_eq.
Qed.

(** X8: A controller just built checks at once.  [NewSettingController]
    leaves LastCheckedAt at the zero time, so the first invocation with the
    flag on makes the network call, and the request carries the version the
    controller was built with. *)
Theorem new_controller_checks_at_once store ver key env cached :
  keyNames key SettingNameUpgradeChecker ->
  ready env (NewSettingController store ver) true cached ->
  upgradeCheckInterval <= now env ->
  networkCalls (trace (sync key env (NewSettingController store ver)).2) =
    [ {| LonghornVersion := ver |} ].
Proof.
  intros Hkey Hready Hdue.
  unfold syncSetting. rewrite (body_check_due _ _ _ _ _ cached); [|done|done|].
  - cbn.
    destruct (checkResult env ver) as [v|e]; cbn;
      [destruct (decide (v = cached)); cbn;
       [|destruct (storeFault env (OpUpdate _)); cbn]|]; by traces.
  - cbn. unfold zeroTime. lia.
Qed.


(** X9: What the checker returns is sound.  Whenever the checker returns a
    version, the round trip gave a decodable response, the version is not
    empty, and it is the Name of a descriptor tagged "latest" that no
    descriptor tagged "latest" precedes; exactly one request was posted,
    to the upgrade responder's URL and carrying the running version. *)
Theorem checker_result_is_sound env sc v sc' :
  CheckLatestLonghornVersion env sc = (Ok v, sc') ->
  v ≠ EmptyString ∧
  sc' = emit (EvHttpPost checkUpgradeURL {| LonghornVersion := version sc |})
             sc ∧
  ∃ resp before d after,
    post env {| LonghornVersion := version sc |} = Decoded resp ∧
    Versions resp = before ++ d :: after ∧
    Name d = v ∧
    VersionTagLatest ∈ Tags d ∧
    Forall (fun x => VersionTagLatest ∉ Tags x) before.
Proof.
  rewrite CheckLatestLonghornVersion_run. intros [= Hcheck <-].
  unfold checkResult in Hcheck.
  destruct (post env _) as [e|e|resp]; try done.
  unfold selectLatest in Hcheck.
  destruct (decide (scanVersions (Versions resp) = EmptyString)) as [|Hne];
    [done|]. injection Hcheck as <-.
  split; [done|]. split; [done|].
  exists resp.
  assert (Hscan : ∀ l, scanVersions l ≠ EmptyString ->
    ∃ before d after, l = before ++ d :: after ∧ Name d = scanVersions l ∧
      VersionTagLatest ∈ Tags d ∧
      Forall (fun x => VersionTagLatest ∉ Tags x) before).
  { induction l as [|x l IH]; cbn; [done|].
    rewrite scanTags_elem_of. case_bool_decide as Hx.
    - intros _. by exists [], x, l.
    - intros Hl. destruct (IH Hl) as (before & d & after & -> & Hd & Ht & Hb).
      exists (x :: before), d, after. split_and!; try done.
      by constructor. }
  destruct (Hscan _ Hne) as (before & d & after & Hl & Hd & Ht & Hb).
  exists before, d, after. by split_and!.
Qed.

(** X10: The retry budget.  For a key with no requeue counted, each of the
    first maxRetries consecutive failures is answered by AddRateLimited and
    nothing is reported; the failure after those is reported once, the key
    is forgotten and its count is zero again. *)
Theorem retry_budget_then_drop key e sc :
  NumRequeues key (queue sc) = 0%nat ->
  (∀ n, (n <= maxRetries)%nat ->
     let sc' := Nat.iter n (handleErr maxRetries (Some e) key) sc in
     queueCalls (trace sc') =
       queueCalls (trace sc) ++ replicate n (CallAddRateLimited key) ∧
     reported (trace sc') = reported (trace sc) ∧
     NumRequeues key (queue sc') = n) ∧
  (let sc' := Nat.iter (S maxRetries) (handleErr maxRetries (Some e) key) sc in
   queueCalls (trace sc') =
     queueCalls (trace sc) ++ replicate maxRetries (CallAddRateLimited key)
                           ++ [CallForget key] ∧
   reported (trace sc') = reported (trace sc) ++ [e] ∧
   NumRequeues key (queue sc') = 0%nat).
Proof.
  intros Hzero.
  assert (Hretry : ∀ st,
    (NumRequeues key (queue st) < maxRetries)%nat ->
    queueCalls (trace (handleErr maxRetries (Some e) key st)) =
      queueCalls (trace st) ++ [CallAddRateLimited key] ∧
    reported (trace (handleErr maxRetries (Some e) key st)) =
      reported (trace st) ∧
    NumRequeues key (queue (handleErr maxRetries (Some e) key st)) =
      S (NumRequeues key (queue st))).
  { intros st Hlt. unfold handleErr.
    apply Nat.ltb_lt in Hlt as ->. split_and!; [by traces..|].
    unfold NumRequeues. cbn. by rewrite lookup_insert_eq. }
  assert (Hdrop : ∀ st,
    (maxRetries <= NumRequeues key (queue st))%nat ->
    queueCalls (trace (handleErr maxRetries (Some e) key st)) =
      queueCalls (trace st) ++ [CallForget key] ∧
    reported (trace (handleErr maxRetries (Some e) key st)) =
      reported (trace st) ++ [e] ∧
    NumRequeues key (queue (handleErr maxRetries (Some e) key st)) = 0%nat).
  { intros st Hge. unfold handleErr.
    apply Nat.ltb_ge in Hge as ->. split_and!; [by traces..|].
    unfold NumRequeues. cbn. by rewrite lookup_delete_eq. }
  assert (Hfirst : ∀ n, (n <= maxRetries)%nat ->
     let sc' := Nat.iter n (handleErr maxRetries (Some e) key) sc in
     queueCalls (trace sc') =
       queueCalls (trace sc) ++ replicate n (CallAddRateLimited key) ∧
     reported (trace sc') = reported (trace sc) ∧
     NumRequeues key (queue sc') = n).
  { induction n as [|n IH]; intros Hn; cbv zeta.
    - cbn. by rewrite app_nil_r.
    - destruct IH as (Hq & Hr & Hc); [lia|].
      rewrite Nat.iter_succ.
      set (st := Nat.iter n (handleErr maxRetries (Some e) key) sc) in *.
      destruct (Hretry st) as (Hq' & Hr' & Hc'); [lia|].
      rewrite Hq', Hr', Hc', Hq, Hr, Hc, <- app_assoc.
      split_and!; try done. f_equal.
      change (replicate (S n) (CallAddRateLimited key))
        with (CallAddRateLimited key :: replicate n (CallAddRateLimited key)).
      by rewrite <- replicate_cons_app. }
  split; [exact Hfirst|].
  destruct (Hfirst maxRetries) as (Hq & Hr & Hc); [lia|].
  cbv zeta in *. rewrite Nat.iter_succ.
  set (st := Nat.iter maxRetries (handleErr maxRetries (Some e) key) sc) in *.
  destruct (Hdrop st) as (Hq' & Hr' & Hc'); [lia|].
  rewrite Hq', Hr', Hc', Hq, Hr, <- app_assoc. done.
Qed.

(** X11: Enqueueing spends the retry budget.  [enqueueSetting] adds the
    key through AddRateLimited, so every notification counts one requeue
    for the key and parks it among the delayed adds instead of making it
    pending.  Once maxRetries notifications of a key have come in with no
    Forget in between, a failing sync of the key is not retried: it is
    reported and the key forgotten. *)
Theorem enqueueing_spends_the_retry_budget setting key n e sc :
  KeyFunc setting = Ok key ->
  let sc' := Nat.iter n (enqueueSetting KeyFunc setting) sc in
  NumRequeues key (queue sc') = (NumRequeues key (queue sc) + n)%nat ∧
  pending (queue sc') = pending (queue sc) ∧
  length (delayed (queue sc')) = (length (delayed (queue sc)) + n)%nat ∧
  ((maxRetries <= NumRequeues key (queue sc) + n)%nat ->
   queueCalls (trace (handleErr maxRetries (Some e) key sc')) =
     queueCalls (trace sc') ++ [CallForget key] ∧
   reported (trace (handleErr maxRetries (Some e) key sc')) =
     reported (trace sc') ++ [e]).
Proof.
  intros Hkey. cbv zeta.
  assert (Hstep : ∀ st,
    NumRequeues key (queue (enqueueSetting KeyFunc setting st)) =
      S (NumRequeues key (queue st)) ∧
    pending (queue (enqueueSetting KeyFunc setting st)) = pending (queue st) ∧
    length (delayed (queue (enqueueSetting KeyFunc setting st))) =
      S (length (delayed (queue st)))).
  { intros st. unfold enqueueSetting. rewrite Hkey. cbn. split_and!; try done.
    - unfold NumRequeues. cbn. by rewrite lookup_insert_eq.
    - rewrite length_app. cbn. lia. }
  assert (Hiter :
    NumRequeues key (queue (Nat.iter n (enqueueSetting KeyFunc setting) sc))
    = (NumRequeues key (queue sc) + n)%nat ∧
    pending (queue (Nat.iter n (enqueueSetting KeyFunc setting) sc))
    = pending (queue sc) ∧
    length (delayed (queue (Nat.iter n (enqueueSetting KeyFunc setting) sc)))
    = (length (delayed (queue sc)) + n)%nat).
  { induction n as [|n (Hc & Hp & Hd)]; [cbn; split_and!; (done || lia)|].
    rewrite Nat.iter_succ.
    set (st := Nat.iter n (enqueueSetting KeyFunc setting) sc) in *.
    destruct (Hstep st) as (Hc' & Hp' & Hd').
    rewrite Hc', Hp', Hd', Hc, Hp, Hd. split_and!; (done || lia). }
  destruct Hiter as (Hc & Hp & Hd). split_and!; try done.
  intros Hspent. unfold handleErr. rewrite Hc.
  destruct (Nat.ltb_spec (NumRequeues key (queue sc) + n) maxRetries);
    [lia|]. split; by traces.
Qed.






Lemma Split_noSlash a : noSlash a = true -> Split a = [a].
Proof.
  induction a as [|c a IH]; cbn; [done|].
  destruct (Ascii.eqb c "/"%char); cbn; [done|].
  intros Ha. by rewrite IH.
Qed.

Lemma Split_slash a b :
  noSlash a = true -> Split (a ++ String "/"%char b)%string = a :: Split b.
Proof.
  induction a as [|c a IH]; [done|].
  simpl. destruct (Ascii.eqb c "/"%char); simpl; [done|].
  intros Ha. by rewrite IH.
Qed.

Lemma Split_nonempty s : Split s ≠ [].
Proof.
  destruct s as [|c s]; cbn; [done|].
  destruct (Ascii.eqb c "/"%char); [done|]. by destruct (Split s).
Qed.

(** X13: The keys the handler reads.  For a namespace and a name without
    a slash, the key "namespace/name" names that setting, and so does the
    bare name: the namespace plays no part.  A key with a further slash is
    no key: the handler returns the key-format error under its message and
    does nothing else. *)
Theorem key_forms namespace name rest env sc :
  noSlash namespace = true ->
  noSlash name = true ->
  SplitMetaNamespaceKey (namespace ++ "/" ++ name) = Ok (namespace, name) ∧
  SplitMetaNamespaceKey name = Ok (EmptyString, name) ∧
  sync (namespace ++ "/" ++ name ++ "/" ++ rest) env sc =
    (Some (ErrWrap (ErrKeyFormat (namespace ++ "/" ++ name ++ "/" ++ rest))
             ("fail to sync setting for "
              ++ (namespace ++ "/" ++ name ++ "/" ++ rest))), sc).
Proof.
  intros Hns Hname. split_and!.
  - unfold SplitMetaNamespaceKey.
    change (namespace ++ "/" ++ name)%string
      with (namespace ++ String "/"%char name)%string.
    by rewrite Split_slash, Split_noSlash.
  - unfold SplitMetaNamespaceKey. by rewrite Split_noSlash.
  - assert (Hsplit : SplitMetaNamespaceKey
                       (namespace ++ "/" ++ name ++ "/" ++ rest)
                     = Err (ErrKeyFormat
                              (namespace ++ "/" ++ name ++ "/" ++ rest))).
    { unfold SplitMetaNamespaceKey.
      change (namespace ++ "/" ++ name ++ "/" ++ rest)%string
        with (namespace ++ String "/"%char (name ++ String "/"%char rest))%string
        at 1.
      rewrite !Split_slash by done.
      pose proof (Split_nonempty rest). by destruct (Split rest). }
    run. by rewrite Hsplit.
Qed.

End Coverage.

(** * The further properties on the sample data *)

(** A flag that is no boolean: the handler fails on the first load. *)
Lemma failed_load_is_passed_on_witness :
  ∃ sc',
    Sample.sync Sample.key
      (Sample.env (100 * Sample.day) (Decoded Sample.response) Sample.noFault)
      (Sample.controller "yes" "1.0.0" 0 Sample.emptyQueue)
    = (Some (ErrWrap (ErrParseBool "yes")
               "fail to sync setting for longhorn-system/upgrade-checker"),
       sc') ∧
    networkCalls (trace sc') = [] ∧
    storeWrites (trace sc') = [].
Proof.
  destruct (failed_load_is_passed_on Sample.upgradeChecker
              Sample.latestVersion Sample.key
              (Sample.env (100 * Sample.day) (Decoded Sample.response)
                          Sample.noFault)
              (Sample.controller "yes" "1.0.0" 0 Sample.emptyQueue)
              (ErrParseBool "yes"))
    as (sc' & Hrun & Hnet & Hwr & _).
  - sample_key.
  - left. eexists. vm_compute. reflexivity.
  - exists sc'. split_and!; [exact Hrun | exact Hnet | exact Hwr].
Defined.

(** The store refuses the new version; one second later the handler is
    content with the old one. *)
Lemma failed_write_still_arms_the_debounce_witness :
  ∃ sc' sc'',
    Sample.sync Sample.key
      (Sample.env (100 * Sample.day) (Decoded Sample.response)
                  Sample.failWrites)
      (Sample.controller "true" "1.0.0" 0 Sample.emptyQueue)
    = (Some (ErrWrap (ErrStore "conflict")
               "fail to sync setting for longhorn-system/upgrade-checker"),
       sc') ∧
    lastUpgradeCheckedTimestamp sc' = 100 * Sample.day ∧
    Sample.sync Sample.key
      (Sample.env (100 * Sample.day + time.Second) (Decoded Sample.response)
                  Sample.noFault) sc'
    = (None, sc'') ∧
    storeWrites (trace sc'') = storeWrites (trace sc') ∧
    ds sc'' !! Sample.latestVersion = Some "1.0.0"%string.
Proof.
  destruct (failed_write_still_arms_the_debounce Sample.upgradeChecker
              Sample.latestVersion Sample.key
              (Sample.env (100 * Sample.day) (Decoded Sample.response)
                          Sample.failWrites)
              (Sample.controller "true" "1.0.0" 0 Sample.emptyQueue)
              "1.0.0" "1.1.0" (ErrStore "conflict"))
    as (sc' & Hrun & Hlast & _ & Hnext).
  - sample_key.
  - sample_ready "true"%string.
  - compute_it.
  - compute_it.
  - compute_it.
  - compute_it.
  - destruct (Hnext (Sample.env (100 * Sample.day + time.Second)
                                (Decoded Sample.response) Sample.noFault))
      as (sc'' & Hrun2 & _ & Hwr & Hcached);
      [compute_it | compute_it | compute_it |].
    exists sc', sc''.
    split_and!; [exact Hrun | exact Hlast | exact Hrun2 | exact Hwr
                | exact Hcached].
Defined.

(** Checked a second ago, switched off, switched on: checked again. *)
Lemma disabling_arms_an_immediate_check_witness :
  ∃ sc',
    Sample.sync Sample.key
      (Sample.env (100 * Sample.day + time.Second) (Decoded Sample.response)
                  Sample.noFault)
      (Sample.controller "false" "1.0.0" (100 * Sample.day)
                         Sample.emptyQueue)
    = (None, sc') ∧
    networkCalls
      (trace (Sample.sync Sample.key
                (Sample.env (100 * Sample.day + 2 * time.Second)
                            (Decoded Sample.response) Sample.noFault)
                (setStore {[ Sample.upgradeChecker := "true"%string;
                             Sample.latestVersion := ""%string ]} sc')).2)
    = networkCalls (trace sc') ++ [ {| LonghornVersion := "v0.3.0" |} ].
Proof.
  destruct (disabling_arms_an_immediate_check Sample.upgradeChecker
              Sample.latestVersion Sample.key
              (Sample.env (100 * Sample.day + time.Second)
                          (Decoded Sample.response) Sample.noFault)
              (Sample.controller "false" "1.0.0" (100 * Sample.day)
                                 Sample.emptyQueue) "1.0.0")
    as (sc' & Hrun & Hnext).
  - sample_key.
  - sample_ready "false"%string.
  - intros _. compute_it.
  - exists sc'. split; [exact Hrun|].
    apply (Hnext _ _ ""%string).
    + assert (Hds : ds (setStore
                          {[ Sample.upgradeChecker := "true"%string;
                             Sample.latestVersion := ""%string ]} sc')
                    = {[ Sample.upgradeChecker := "true"%string;
                         Sample.latestVersion := ""%string ]}) by done.
      split_and!; [compute_it | exists "true"%string; rewrite Hds;
                                split; compute_it
                  | compute_it | rewrite Hds; compute_it].
    + compute_it.
Defined.

(** Switched off twice, with a store that would refuse the second write. *)
Lemma disabling_again_writes_nothing_witness :
  ∃ sc' sc'',
    Sample.sync Sample.key
      (Sample.env (100 * Sample.day) (Decoded Sample.response) Sample.noFault)
      (Sample.controller "false" "1.0.0" (99 * Sample.day) Sample.emptyQueue)
    = (None, sc') ∧
    Sample.sync Sample.key
      (Sample.env (101 * Sample.day) (Decoded Sample.response)
                  Sample.failWrites) sc'
    = (None, sc'') ∧
    storeWrites (trace sc'') = storeWrites (trace sc') ∧
    ds sc'' = ds sc'.
Proof.
  destruct (disabling_again_writes_nothing Sample.upgradeChecker
              Sample.latestVersion Sample.key
              (Sample.env (100 * Sample.day) (Decoded Sample.response)
                          Sample.noFault)
              (Sample.controller "false" "1.0.0" (99 * Sample.day)
                                 Sample.emptyQueue) "1.0.0")
    as (sc' & Hrun & _ & Hnext).
  - compute_it.
  - sample_key.
  - sample_ready "false"%string.
  - intros _. compute_it.
  - destruct (Hnext (Sample.env (101 * Sample.day) (Decoded Sample.response)
                                Sample.failWrites))
      as (sc'' & Hrun2 & Hwr & Hds & _); [compute_it | compute_it |].
    exists sc', sc''.
    split_and!; [exact Hrun | exact Hrun2 | exact Hwr | exact Hds].
Defined.

Lemma new_controller_checks_at_once_witness :
  networkCalls
    (trace (Sample.sync Sample.key
              (Sample.env (100 * Sample.day) (Decoded Sample.response)
                          Sample.noFault)
              (NewSettingController
                 {[ Sample.upgradeChecker := "true"%string;
                    Sample.latestVersion := ""%string ]} "v0.3.0")).2)
  = [ {| LonghornVersion := "v0.3.0" |} ].
Proof.
  apply (new_controller_checks_at_once Sample.upgradeChecker
           Sample.latestVersion _ _ Sample.key _ ""%string).
  - sample_key.
  - sample_ready "true"%string.
  - compute_it.
Defined.

Lemma checker_result_is_sound_witness :
  ∃ resp before d after,
    Versions resp = before ++ d :: after ∧
    Name d = "1.1.0"%string ∧
    VersionTagLatest ∈ Tags d ∧
    Forall (fun x => VersionTagLatest ∉ Tags x) before.
Proof.
  destruct (checker_result_is_sound
              (Sample.env 0 (Decoded Sample.response) Sample.noFault)
              (Sample.controller "true" "" 0 Sample.emptyQueue)
              "1.1.0"
              (emit (EvHttpPost checkUpgradeURL
                                {| LonghornVersion := "v0.3.0" |})
                    (Sample.controller "true" "" 0 Sample.emptyQueue)))
    as (_ & _ & resp & before & d & after & _ & Hl & Hd & Ht & Hb).
  - reflexivity.
  - exists resp, before, d, after.
    split_and!; [exact Hl | exact Hd | exact Ht | exact Hb].
Defined.

(** Three failures are answered by a new attempt, the fourth by a report. *)
Lemma retry_budget_then_drop_witness :
  queueCalls
    (trace (Nat.iter 4 (handleErr Sample.maxRetries
                                  (Some (ErrTransport "timeout")) Sample.key)
                       (Sample.controller "true" "" 0 Sample.emptyQueue)))
  = [CallAddRateLimited Sample.key; CallAddRateLimited Sample.key;
     CallAddRateLimited Sample.key; CallForget Sample.key] ∧
  reported
    (trace (Nat.iter 4 (handleErr Sample.maxRetries
                                  (Some (ErrTransport "timeout")) Sample.key)
                       (Sample.controller "true" "" 0 Sample.emptyQueue)))
  = [ErrTransport "timeout"].
Proof.
  destruct (retry_budget_then_drop Sample.maxRetries Sample.key
              (ErrTransport "timeout")
              (Sample.controller "true" "" 0 Sample.emptyQueue))
    as [_ (Hq & Hr & _)].
  - reflexivity.
  - split; [exact Hq | exact Hr].
Defined.

(** Three notifications, then the first failure: no retry. *)
Lemma enqueueing_spends_the_retry_budget_witness :
  NumRequeues Sample.key
    (queue (Nat.iter 3 (enqueueSetting Sample.KeyFunc
                          {| SName := "upgrade-checker"; Value := "true" |})
                       (Sample.controller "true" "" 0 Sample.emptyQueue)))
  = 3%nat ∧
  reported
    (trace (handleErr Sample.maxRetries (Some (ErrTransport "timeout"))
              Sample.key
              (Nat.iter 3 (enqueueSetting Sample.KeyFunc
                             {| SName := "upgrade-checker"; Value := "true" |})
                          (Sample.controller "true" "" 0 Sample.emptyQueue))))
  = [ErrTransport "timeout"].
Proof.
  destruct (enqueueing_spends_the_retry_budget Sample.maxRetries
              Sample.KeyFunc
              {| SName := "upgrade-checker"; Value := "true" |}
              Sample.key 3 (ErrTransport "timeout")
              (Sample.controller "true" "" 0 Sample.emptyQueue))
    as (Hc & _ & _ & Hdrop).
  - reflexivity.
  - split; [exact Hc|].
    destruct Hdrop as [_ Hr]; [compute_it|]. exact Hr.
Defined.


Lemma key_forms_witness :
  SplitMetaNamespaceKey "longhorn-system/upgrade-checker"
  = Ok ("longhorn-system"%string, "upgrade-checker"%string) ∧
  SplitMetaNamespaceKey "upgrade-checker"
  = Ok (EmptyString, "upgrade-checker"%string).
Proof.
  destruct (key_forms Sample.upgradeChecker Sample.latestVersion
              "longhorn-system" "upgrade-checker" "x"
              (Sample.env 0 (Decoded Sample.response) Sample.noFault)
              (Sample.controller "true" "" 0 Sample.emptyQueue))
    as (Hfull & Hbare & _).
  - reflexivity.
  - reflexivity.
  - split; [exact Hfull | exact Hbare].
Defined.
